(** * Gateway service of the AI code-review assistant

    A shallow embedding of [server/index.js]: the configuration gate that
    runs when the module is loaded, the construction of the two client
    handles, and the five Express routes.  JavaScript values are an
    inductive type, [process.env] and parsed JSON objects are finite maps,
    and the effects of the program (console output, SDK calls,
    [process.exit], [app.listen]) are recorded in an event log threaded
    through a small monad with exceptions. *)

From Stdlib Require Import ZArith String Ascii List Decimal DecimalString.
From stdpp Require Import base option list strings gmap fin_maps.

Set Warnings "-register-all".

Local Open Scope string_scope.
Local Open Scope Z_scope.

(** ** JavaScript values *)

Module JS.

(** The values a request body parsed by [express.json()] is made of,
    together with [undefined], the result of reading a property that is
    not there.  Numbers are the integers that a double holds exactly and
    prints in full. *)
Inductive Value :=
| Undefined
| Null
| Bool (b : bool)
| Num (n : Z)
| Str (s : string)
| Arr (elems : list Value)
| Obj (fields : gmap string Value).

(** Objects thrown by the runtime and the SDKs: instances of [Error]. *)
Record Error := mkError { name : string; message : string }.

(** ToBoolean: what [!v] and [v || d] test. *)
Definition truthy (v : Value) : bool :=
  match v with
  | Undefined | Null => false
  | Bool b => b
  | Num n => negb (n =? 0)
  | Str s => negb (String.eqb s EmptyString)
  | Arr _ | Obj _ => true
  end.

Definition nullish (v : Value) : bool :=
  match v with
  | Undefined | Null => true
  | _ => false
  end.

(** Number::toString on an integral number. *)
Definition number_to_string (n : Z) : string :=
  NilZero.string_of_int (Z.to_int n).

(** [parts.join(",")] on strings already converted; [None] when the
    conversion of an element threw. *)
Fixpoint join (parts : list (option string)) : option string :=
  match parts with
  | [] => Some EmptyString
  | [p] => p
  | p :: rest =>
      match p, join rest with
      | Some s, Some t => Some (s ++ "," ++ t)
      | _, _ => None
      end
  end.

(** ToString, the conversion a template literal applies to [${v}];
    [None] stands for the TypeError of an object that cannot be
    converted to a primitive value.  A parsed JSON object inherits
    [Object.prototype.toString] unless it has an own [toString] property,
    which is then not callable.  An array is joined with commas, its
    [null] and [undefined] elements giving the empty string. *)
Fixpoint to_string (v : Value) : option string :=
  match v with
  | Undefined => Some "undefined"
  | Null => Some "null"
  | Bool true => Some "true"
  | Bool false => Some "false"
  | Num n => Some (number_to_string n)
  | Str s => Some s
  | Arr l =>
      join (List.map (fun x => if nullish x then Some EmptyString
                               else to_string x) l)
  | Obj m =>
      match m !! "toString" with
      | None => Some "[object Object]"
      | Some _ => None
      end
  end.

Definition cannot_convert : Error :=
  mkError "TypeError" "Cannot convert object to primitive value".

(** [v[k]] for the keys this program reads ([code], [language],
    [prompt]): an own property of an object; arrays and primitives have
    no property of these names. *)
Definition get (v : Value) (k : string) : Value :=
  match v with
  | Obj m => default Undefined (m !! k)
  | _ => Undefined
  end.

(** An object literal [{ k1: v1, ..., kn: vn }]. *)
Definition object (kvs : list (string * Value)) : Value :=
  Obj (list_to_map kvs).

End JS.

(** ** The process environment and the configuration gate *)

(** The line feed of the [\n] escapes and of the line breaks inside
    template literals. *)
Definition LF : string := String "010"%char EmptyString.

(** [const requiredEnvVars = [...]] *)
Definition requiredEnvVars : list string :=
  ["SUPABASE_URL"; "SUPABASE_SERVICE_ROLE_KEY"; "GOOGLE_GEMINI_API_KEY"].

(** [const placeholderValues = [...]] *)
Definition placeholderValues : list string :=
  ["your_supabase_url_here";
   "your_supabase_anon_key_here";
   "your_supabase_service_role_key_here";
   "your_google_gemini_api_key_here"].

(** [list.includes(value)] on strings. *)
Definition includes (l : list string) (value : string) : bool :=
  existsb (String.eqb value) l.

(** The callback of the filter: [!value || placeholderValues.includes(value)]
    with [value = process.env[envVar]], which is a string or [undefined]. *)
Definition is_missing (env : gmap string string) (envVar : string) : bool :=
  match env !! envVar with
  | None => true
  | Some value =>
      String.eqb value EmptyString || includes placeholderValues value
  end.

(** [const missingEnvVars = requiredEnvVars.filter(...)] *)
Definition missingEnvVars (env : gmap string string) : list string :=
  List.filter (is_missing env) requiredEnvVars.

(** [const PORT = process.env.PORT || 3001] *)
Definition PORT (env : gmap string string) : JS.Value :=
  match env !! "PORT" with
  | Some value =>
      if String.eqb value EmptyString then JS.Num 3001 else JS.Str value
  | None => JS.Num 3001
  end.

(** ** Effects *)

(** What the process does to the outside, in the order it does it. *)
Inductive Event :=
| ConsoleError (line : string)
| ConsoleErrorObject (label : string) (error : JS.Error)
| ConsoleLog (line : string)
| ProcessExit (code : Z)
| CreateClient (url key : option string)
| NewGoogleGenerativeAI (apiKey : option string)
| GetGenerativeModel (model : string)
| Listen (port : JS.Value)
| SupabaseSelect (table columns : string) (limit : Z)
| GenerateContent (prompt : JS.Value).

(** How a piece of code completes: normally with a value, by throwing, or
    by [process.exit]. *)
Inductive Completion (A : Type) :=
| Normal (a : A)
| Throw (error : JS.Error)
| Exit (code : Z).
Arguments Normal {A} a.
Arguments Throw {A} error.
Arguments Exit {A} code.

(** A computation extends the event log and completes. *)
Definition Script (A : Type) : Type :=
  list Event -> Completion A * list Event.

Definition ret {A} (a : A) : Script A := fun log => (Normal a, log).

Definition bind {A B} (m : Script A) (k : A -> Script B) : Script B :=
  fun log =>
    match m log with
    | (Normal a, log') => k a log'
    | (Throw e, log') => (Throw e, log')
    | (Exit c, log') => (Exit c, log')
    end.

Declare Scope script_scope.
Delimit Scope script_scope with script.
Bind Scope script_scope with Script.
Notation "x <- m ;; k" := (bind m (fun x => k))
  (at level 100, m at next level, k at level 200, right associativity)
  : script_scope.
Notation "m ;; k" := (bind m (fun _ => k))
  (at level 100, k at level 200, right associativity) : script_scope.
Local Open Scope script_scope.

Definition emit (e : Event) : Script unit :=
  fun log => (Normal tt, (log ++ [e])%list).

Definition throw {A} (e : JS.Error) : Script A :=
  fun log => (Throw e, log).

(** [try { body } catch (error) { handler }]: [process.exit] is not an
    exception and is not caught. *)
Definition try_catch {A} (body : Script A) (handler : JS.Error -> Script A)
  : Script A :=
  fun log =>
    match body log with
    | (Throw e, log') => handler e log'
    | done => done
    end.

(** A call that reads the world: its answer may depend on what happened
    before. *)
Definition ask {A} (oracle : list Event -> A) : Script A :=
  fun log => (Normal (oracle log), log).

Definition console_error (line : string) : Script unit :=
  emit (ConsoleError line).

Definition console_log (line : string) : Script unit :=
  emit (ConsoleLog line).

(** [process.exit(code)] ends the process on the spot: nothing after it
    runs. *)
Definition process_exit {A} (code : Z) : Script A :=
  fun log => (Exit code, (log ++ [ProcessExit code])%list).

(** [list.forEach(f)] *)
Fixpoint forEach {A} (l : list A) (f : A -> Script unit) : Script unit :=
  match l with
  | [] => ret tt
  | x :: rest => f x ;; forEach rest f
  end.

(** A call into an SDK: the event is logged, and the answer is what the
    world gives after the history before the call. *)
Definition call {A} (e : Event) (oracle : list Event -> A) : Script A :=
  fun log => (Normal (oracle log), (log ++ [e])%list).

(** ** Dates *)

(** The UTC fields of a [Date]; months count from 1. *)
Record DateTime := mkDate {
  year : N; month : N; day : N;
  hours : N; minutes : N; seconds : N; milliseconds : N
}.

(** [String(n).padStart(width, "0")] *)
Definition padStart (width : nat) (n : N) : string :=
  let digits := NilZero.string_of_uint (N.to_uint n) in
  String.concat EmptyString
    (repeat "0" (width - String.length digits)) ++ digits.

(** [date.toISOString()]: [YYYY-MM-DDTHH:mm:ss.sssZ], the year with a
    sign and six digits when it has more than four. *)
Definition toISOString (d : DateTime) : string :=
  (if (year d <=? 9999)%N then padStart 4 (year d)
   else "+" ++ padStart 6 (year d))
  ++ "-" ++ padStart 2 (month d) ++ "-" ++ padStart 2 (day d)
  ++ "T" ++ padStart 2 (hours d) ++ ":" ++ padStart 2 (minutes d)
  ++ ":" ++ padStart 2 (seconds d) ++ "." ++ padStart 3 (milliseconds d)
  ++ "Z".

(** ** The world outside the process *)

(** What the data-store query [supabase.from(..).select(..).limit(..)]
    comes to once awaited. *)
Inductive QueryOutcome :=
| QueryThrows (error : JS.Error)
| QueryResolves (data : JS.Value) (error : option JS.Error).

(** What [model.generateContent(prompt)] followed by [response.text()]
    comes to: the promise rejects, the text accessor throws, or a text
    comes back. *)
Inductive GenOutcome :=
| GenRejects (error : JS.Error)
| GenTextThrows (error : JS.Error)
| GenText (text : string).

(** The libraries and services the module is linked against.  A
    constructor either builds its handle ([None]) or throws. *)
Record World := mkWorld {
  dotenv_config : gmap string string -> gmap string string;
  createClient : option string -> option string -> option JS.Error;
  new_GoogleGenerativeAI : option string -> option JS.Error;
  getGenerativeModel : string -> option JS.Error;
  supabase_query : list Event -> QueryOutcome;
  generateContent : list Event -> JS.Value -> GenOutcome;
  new_Date : list Event -> DateTime
}.

(** A constructor call. *)
Definition construct (e : Event) (result : option JS.Error) : Script unit :=
  emit e ;;
  match result with
  | Some error => throw error
  | None => ret tt
  end.

(** ** Startup: the top level of the module, after [dotenv.config()] *)

Definition port_text (env : gmap string string) : string :=
  default EmptyString (JS.to_string (PORT env)).

Definition startup (w : World) (env : gmap string string) : Script unit :=
  (if (0 <? length (missingEnvVars env))%nat then
     console_error "❌ Missing or invalid environment variables:" ;;
     forEach (missingEnvVars env)
       (fun envVar => console_error ("   - " ++ envVar)) ;;
     console_error
       (LF ++ "📝 Please update your server/.env file with valid credentials") ;;
     console_error
       "   Supabase: https://supabase.com/dashboard/project/[your-project]/settings/api" ;;
     console_error
       "   Google Gemini: https://makersuite.google.com/app/apikey" ;;
     console_error (LF ++ "🔧 To fix this:") ;;
     console_error
       "   1. Get your Supabase credentials from your project dashboard" ;;
     console_error
       "   2. Get your Google Gemini API key from Google AI Studio" ;;
     console_error "   3. Replace the placeholder values in server/.env" ;;
     console_error
       (LF ++ "⚠️  Server will not start until valid credentials are provided") ;;
     process_exit 1
   else ret tt) ;;
  try_catch
    (construct
       (CreateClient (env !! "SUPABASE_URL")
          (env !! "SUPABASE_SERVICE_ROLE_KEY"))
       (createClient w (env !! "SUPABASE_URL")
          (env !! "SUPABASE_SERVICE_ROLE_KEY")) ;;
     console_log "✅ Supabase client initialized successfully")
    (fun error =>
       console_error
         ("❌ Failed to initialize Supabase client:" ++ " "
            ++ JS.message error) ;;
       process_exit 1) ;;
  try_catch
    (construct (NewGoogleGenerativeAI (env !! "GOOGLE_GEMINI_API_KEY"))
       (new_GoogleGenerativeAI w (env !! "GOOGLE_GEMINI_API_KEY")) ;;
     construct (GetGenerativeModel "gemini-pro")
       (getGenerativeModel w "gemini-pro") ;;
     console_log "✅ Google Gemini AI initialized successfully")
    (fun error =>
       console_error
         ("❌ Failed to initialize Google Gemini AI:" ++ " "
            ++ JS.message error) ;;
       process_exit 1) ;;
  emit (Listen (PORT env)) ;;
  console_log ("✅ Server running on port " ++ port_text env) ;;
  console_log
    ("🌐 Health check: http://localhost:" ++ port_text env ++ "/health") ;;
  console_log
    ("🧪 API test: http://localhost:" ++ port_text env ++ "/api/test") ;;
  console_log
    ("🗄️  Supabase test: http://localhost:" ++ port_text env
       ++ "/api/supabase-test") ;;
  console_log
    ("🤖 Gemini test: POST http://localhost:" ++ port_text env
       ++ "/api/gemini-test") ;;
  console_log
    ("📝 Code review: POST http://localhost:" ++ port_text env
       ++ "/api/code-review").

(** The process after its top level has run: serving, or gone with an
    exit status.  An exception nobody catches ends a Node process with
    status 1. *)
Inductive Process :=
| Listening
| Exited (code : Z).

Definition settle {A} (done : Completion A * list Event)
  : Process * list Event :=
  match done with
  | (Normal _, log) => (Listening, log)
  | (Throw _, log) => (Exited 1, log)
  | (Exit code, log) => (Exited code, log)
  end.

(** Running [node index.js] in the process environment [penv]. *)
Definition main (w : World) (penv : gmap string string)
  : Process * list Event :=
  settle (startup w (dotenv_config w penv) []).

(** ** The routes *)

Inductive Method := GET | POST.

(** A request as the handlers see it: the verb, the path in the spelling
    of the route it is matched against, and [req.body], which is what
    [express.json()] left there. *)
Record Request := mkRequest {
  method : Method; path : string; body : JS.Value
}.

Record Response := mkResponse { status : Z; payload : JS.Value }.

(** [res.status(code).json(value)]; [res.json(value)] is the case of
    status 200. *)
Definition res_json (code : Z) (value : JS.Value) : Script Response :=
  ret (mkResponse code value).

(** The start of [const { key, ... } = source]: a source that is
    [undefined] or [null] cannot be destructured. *)
Definition destructuring (source : JS.Value) (key : string) : Script unit :=
  match source with
  | JS.Undefined =>
      throw (JS.mkError "TypeError"
               ("Cannot destructure property '" ++ key
                  ++ "' of 'req.body' as it is undefined."))
  | JS.Null =>
      throw (JS.mkError "TypeError"
               ("Cannot destructure property '" ++ key
                  ++ "' of 'req.body' as it is null."))
  | _ => ret tt
  end.

(** [{ key = fallback }]: the default stands in for [undefined] only. *)
Definition or_default (value fallback : JS.Value) : JS.Value :=
  match value with
  | JS.Undefined => fallback
  | _ => value
  end.

(** [app.get('/health', ...)] *)
Definition health : Script Response :=
  res_json 200
    (JS.object
       [("status", JS.Str "OK");
        ("message", JS.Str "Server is running");
        ("services",
         JS.object [("supabase", JS.Str "✅ Connected");
                    ("gemini", JS.Str "✅ Connected")])]).

(** [app.get('/api/test', ...)] *)
Definition api_test : Script Response :=
  res_json 200 (JS.object [("message", JS.Str "API is working!")]).

(** [app.get('/api/supabase-test', ...)] *)
Definition api_supabase_test (w : World) : Script Response :=
  try_catch
    (answer <- call (SupabaseSelect "test" "*" 1) (supabase_query w) ;;
     match answer with
     | QueryThrows error => throw error
     | QueryResolves data (Some error) =>
         res_json 200
           (JS.object
              [("status", JS.Str "connected");
               ("message", JS.Str "Supabase connected (no test table found)");
               ("error", JS.Str (JS.message error))])
     | QueryResolves data None =>
         res_json 200
           (JS.object
              [("status", JS.Str "connected");
               ("message", JS.Str "Supabase connected successfully");
               ("data", data)])
     end)
    (fun error =>
       res_json 500
         (JS.object
            [("status", JS.Str "error");
             ("message", JS.Str "Supabase connection failed");
             ("error", JS.Str (JS.message error))])).

(** [await model.generateContent(prompt)], [await result.response] and
    [response.text()]. *)
Definition generate (w : World) (prompt : JS.Value) : Script string :=
  answer <- call (GenerateContent prompt)
              (fun log => generateContent w log prompt) ;;
  match answer with
  | GenRejects error => throw error
  | GenTextThrows error => throw error
  | GenText text => ret text
  end.

(** [app.post('/api/gemini-test', ...)] *)
Definition api_gemini_test (w : World) (req : Request) : Script Response :=
  try_catch
    (destructuring (body req) "prompt" ;;
     let prompt :=
       or_default (JS.get (body req) "prompt")
         (JS.Str "Hello, how are you?") in
     text <- generate w prompt ;;
     res_json 200
       (JS.object
          [("status", JS.Str "success");
           ("message", JS.Str "Google Gemini AI working successfully");
           ("prompt", prompt);
           ("response", JS.Str text)]))
    (fun error =>
       res_json 500
         (JS.object
            [("status", JS.Str "error");
             ("message", JS.Str "Google Gemini AI test failed");
             ("error", JS.Str (JS.message error))])).

(** The template literal of the review prompt, on the two interpolated
    strings. *)
Definition review_prompt (language code : string) : string :=
  "Please review the following " ++ language
    ++ " code and provide constructive feedback:" ++ LF
    ++ LF
    ++ "Code:" ++ LF
    ++ "```" ++ language ++ LF
    ++ code ++ LF
    ++ "```" ++ LF
    ++ LF
    ++ "Please provide:" ++ LF
    ++ "1. Overall code quality assessment" ++ LF
    ++ "2. Potential bugs or issues" ++ LF
    ++ "3. Performance improvements" ++ LF
    ++ "4. Best practices suggestions" ++ LF
    ++ "5. Security considerations (if applicable)" ++ LF
    ++ "6. Code style and readability improvements" ++ LF
    ++ LF
    ++ "Format your response in a clear, structured way.".

(** Evaluating the template literal: both values go through ToString. *)
Definition template (language code : JS.Value) : Script string :=
  match JS.to_string language, JS.to_string code with
  | Some l, Some c => ret (review_prompt l c)
  | _, _ => throw JS.cannot_convert
  end.

(** [app.post('/api/code-review', ...)] *)
Definition api_code_review (w : World) (req : Request) : Script Response :=
  try_catch
    (destructuring (body req) "code" ;;
     let code := JS.get (body req) "code" in
     let language :=
       or_default (JS.get (body req) "language") (JS.Str "javascript") in
     if negb (JS.truthy code) then
       res_json 400 (JS.object [("error", JS.Str "Code is required")])
     else
       prompt <- template language code ;;
       review <- generate w (JS.Str prompt) ;;
       now <- ask (new_Date w) ;;
       res_json 200
         (JS.object
            [("success", JS.Bool true);
             ("review", JS.Str review);
             ("language", language);
             ("timestamp", JS.Str (toISOString now))]))
    (fun error =>
       emit (ConsoleErrorObject "Code review error:" error) ;;
       res_json 500
         (JS.object
            [("error", JS.Str "Failed to generate code review");
             ("message", JS.Str (JS.message error))])).

(** ** The server *)

(** The route table, in registration order; no two routes overlap. *)
Definition route (w : World) (req : Request) : option (Script Response) :=
  match method req with
  | GET =>
      if String.eqb (path req) "/health" then Some health
      else if String.eqb (path req) "/api/test" then Some api_test
      else if String.eqb (path req) "/api/supabase-test"
           then Some (api_supabase_test w)
      else None
  | POST =>
      if String.eqb (path req) "/api/gemini-test"
      then Some (api_gemini_test w req)
      else if String.eqb (path req) "/api/code-review"
           then Some (api_code_review w req)
      else None
  end.

(** What the client gets back: the JSON response of a handler, or the 404
    of Express when no route matches. *)
Inductive Reply :=
| Json (response : Response)
| NotFound.

(** What becomes of the process and of the request once the handler has
    run.  A handler that lets an exception escape leaves its request
    unanswered; in the asynchronous handlers that is an unhandled
    rejection, which ends the process with status 1. *)
Definition respond (done : Completion Response * list Event)
  : Process * option Reply * list Event :=
  match done with
  | (Normal response, log) => (Listening, Some (Json response), log)
  | (Throw _, log) => (Exited 1, None, log)
  | (Exit code, log) => (Exited code, None, log)
  end.

(** One request against the process.  A process that has exited answers
    nothing. *)
Definition serve (w : World) (p : Process) (req : Request)
    (log : list Event) : Process * option Reply * list Event :=
  match p with
  | Exited code => (Exited code, None, log)
  | Listening =>
      match route w req with
      | None => (Listening, Some NotFound, log)
      | Some handler => respond (handler log)
      end
  end.

(** ** Reading an ISO-8601 timestamp *)

Definition digit_value (c : ascii) : option N :=
  let n := N_of_ascii c in
  if ((48 <=? n) && (n <=? 57))%N then Some (n - 48)%N else None.

(** Exactly [count] decimal digits, most significant first. *)
Fixpoint read_digits (count : nat) (acc : N) (s : string)
  : option (N * string) :=
  match count with
  | O => Some (acc, s)
  | S count' =>
      match s with
      | String c rest =>
          match digit_value c with
          | Some d => read_digits count' (10 * acc + d)%N rest
          | None => None
          end
      | EmptyString => None
      end
  end.

Definition expect (c : ascii) (s : string) : option string :=
  match s with
  | String c' rest => if Ascii.eqb c c' then Some rest else None
  | EmptyString => None
  end.

(** Four digits, or a plus sign and six. *)
Definition read_year (s : string) : option (N * string) :=
  match read_digits 4 0%N s with
  | Some found => Some found
  | None => rest ← expect "+" s; read_digits 6 0%N rest
  end.

(** The ranges of the fields of a calendar date and time of day; the
    last year a [Date] can hold is 275760. *)
Definition valid_date (d : DateTime) : bool :=
  ((year d <=? 275760) && (1 <=? month d) && (month d <=? 12)
   && (1 <=? day d) && (day d <=? 31) && (hours d <=? 23)
   && (minutes d <=? 59) && (seconds d <=? 59)
   && (milliseconds d <=? 999))%N.

(** The complete date-time form in UTC, [YYYY-MM-DDTHH:mm:ss.sssZ] (or
    with an expanded year), with every field in range. *)
Definition parse_iso8601 (s : string) : option DateTime :=
  '(y, s) ← read_year s;
  s ← expect "-" s;
  '(mo, s) ← read_digits 2 0%N s;
  s ← expect "-" s;
  '(dd, s) ← read_digits 2 0%N s;
  s ← expect "T" s;
  '(hh, s) ← read_digits 2 0%N s;
  s ← expect ":" s;
  '(mi, s) ← read_digits 2 0%N s;
  s ← expect ":" s;
  '(ss, s) ← read_digits 2 0%N s;
  s ← expect "." s;
  '(ms, s) ← read_digits 3 0%N s;
  s ← expect "Z" s;
  let d := mkDate y mo dd hh mi ss ms in
  if String.eqb s EmptyString && valid_date d then Some d else None.

(** ** Vocabulary of the statements *)

(** A required key is unusable when the environment does not define it,
    defines it as the empty string, or defines it as a placeholder. *)
Definition unusable (env : gmap string string) (key : string) : Prop :=
  env !! key = None
  \/ env !! key = Some EmptyString
  \/ exists value, env !! key = Some value /\ In value placeholderValues.

(** The line of the diagnostic that names a key. *)
Definition names_key (key : string) : Event :=
  ConsoleError ("   - " ++ key).

Definition is_console_error (e : Event) : bool :=
  match e with
  | ConsoleError _ => true
  | _ => false
  end.

(** The events of a refused start: the heading, one line per unusable
    key, the instructions, and the exit. *)
Definition refusal (env : gmap string string) : list Event :=
  ([ConsoleError "❌ Missing or invalid environment variables:"]
   ++ List.map names_key (missingEnvVars env)
   ++ [ConsoleError
         (LF ++ "📝 Please update your server/.env file with valid credentials");
       ConsoleError
         "   Supabase: https://supabase.com/dashboard/project/[your-project]/settings/api";
       ConsoleError
         "   Google Gemini: https://makersuite.google.com/app/apikey";
       ConsoleError (LF ++ "🔧 To fix this:");
       ConsoleError
         "   1. Get your Supabase credentials from your project dashboard";
       ConsoleError
         "   2. Get your Google Gemini API key from Google AI Studio";
       ConsoleError "   3. Replace the placeholder values in server/.env";
       ConsoleError
         (LF ++ "⚠️  Server will not start until valid credentials are provided")])%list.

(** The calls made to the generative-text client, oldest first. *)
Definition prompts_sent (log : list Event) : list JS.Value :=
  omap (fun e => match e with
                 | GenerateContent prompt => Some prompt
                 | _ => None
                 end) log.

(** The calls made to either external service. *)
Definition is_probe (e : Event) : bool :=
  match e with
  | SupabaseSelect _ _ _ | GenerateContent _ => true
  | _ => false
  end.

(** [sub] occurs in [s]. *)
Definition occurs_in (sub s : string) : Prop :=
  exists before after, s = before ++ sub ++ after.

(** The generative-text call fails with [error]: the promise rejects or
    reading the text throws. *)
Definition fails_with (answer : GenOutcome) (error : JS.Error) : Prop :=
  answer = GenRejects error \/ answer = GenTextThrows error.

(** ** The responses, by name *)

(** The payloads of the responses of the review route. *)
Definition code_required : Response :=
  mkResponse 400 (JS.object [("error", JS.Str "Code is required")]).

Definition review_ok (review : string) (language : JS.Value)
    (now : DateTime) : Response :=
  mkResponse 200
    (JS.object
       [("success", JS.Bool true);
        ("review", JS.Str review);
        ("language", language);
        ("timestamp", JS.Str (toISOString now))]).

Definition review_failed (error : JS.Error) : Response :=
  mkResponse 500
    (JS.object
       [("error", JS.Str "Failed to generate code review");
        ("message", JS.Str (JS.message error))]).

(** The payloads of the responses of the generative-text test route. *)
Definition gemini_ok (prompt : JS.Value) (text : string) : Response :=
  mkResponse 200
    (JS.object
       [("status", JS.Str "success");
        ("message", JS.Str "Google Gemini AI working successfully");
        ("prompt", prompt);
        ("response", JS.Str text)]).

Definition gemini_failed (error : JS.Error) : Response :=
  mkResponse 500
    (JS.object
       [("status", JS.Str "error");
        ("message", JS.Str "Google Gemini AI test failed");
        ("error", JS.Str (JS.message error))]).

Definition health_payload : JS.Value :=
  JS.object
    [("status", JS.Str "OK");
     ("message", JS.Str "Server is running");
     ("services",
      JS.object [("supabase", JS.Str "✅ Connected");
                 ("gemini", JS.Str "✅ Connected")])].

Definition probe_event : Event := SupabaseSelect "test" "*" 1.




(** ** Requests to the routes *)

Definition review_request (b : JS.Value) : Request :=
  mkRequest POST "/api/code-review" b.

Definition gemini_request (b : JS.Value) : Request :=
  mkRequest POST "/api/gemini-test" b.

Definition probe_request : Request :=
  mkRequest GET "/api/supabase-test" JS.Undefined.

Definition health_request : Request :=
  mkRequest GET "/health" JS.Undefined.

(** ** Numerals checked one by one *)

(** Reading [width] digits off the padded numeral of [n] gives [n] and
    leaves nothing. *)
Definition pads_back (width : nat) (n : N) : bool :=
  match read_digits width 0%N (padStart width n) with
  | Some (m, EmptyString) => N.eqb m n
  | _ => false
  end.

(** A check run on [from], [from + 1], ..., [fuel] numbers in all. *)
Fixpoint all_from (fuel : nat) (from : N) (check : N -> bool) : bool :=
  match fuel with
  | O => true
  | S fuel' => check from && all_from fuel' (N.succ from) check
  end.

(** ** Sample worlds, environments and bodies *)

(** A world in which [dotenv.config()] finds no file, every constructor
    succeeds, and the two services behave as given. *)
Definition sample_world (query : QueryOutcome) (answer : GenOutcome)
  : World :=
  mkWorld (fun env => env) (fun _ _ => None) (fun _ => None) (fun _ => None)
    (fun _ => query) (fun _ _ => answer)
    (fun _ => mkDate 2024 3 9 7 5 0 42).

(** Both services answer. *)
Definition calm_world : World :=
  sample_world (QueryResolves (JS.Arr []) None) (GenText "Looks fine.").

(** The generative-text service is out of quota. *)
Definition quota_error : JS.Error :=
  JS.mkError "Error" "[429 Too Many Requests] Resource has been exhausted".

Definition exhausted_world : World :=
  sample_world (QueryResolves (JS.Arr []) None) (GenRejects quota_error).





(** An environment copied from the example file with one key edited. *)
Definition unedited_env : gmap string string :=
  {[ "SUPABASE_URL" := "https://abc.supabase.co";
     "SUPABASE_SERVICE_ROLE_KEY" := "your_supabase_service_role_key_here";
     "PORT" := "3002" ]}.

(** An environment with every required key set. *)
Definition edited_env : gmap string string :=
  {[ "SUPABASE_URL" := "https://abc.supabase.co";
     "SUPABASE_SERVICE_ROLE_KEY" := "service-role-key";
     "GOOGLE_GEMINI_API_KEY" := "gemini-key";
     "PORT" := "3002" ]}.

(** The request of the specification's example. *)
Definition example_body : JS.Value :=
  JS.object [("code", JS.Str "function f(){}");
             ("language", JS.Str "javascript")].

Definition code_only_body : JS.Value :=
  JS.object [("code", JS.Str "function f(){}")].

Definition prompt_body : JS.Value :=
  JS.object [("prompt", JS.Str "Say hi")].


Definition empty_language_body : JS.Value :=
  JS.object [("code", JS.Str "function f(){}");
             ("language", JS.Str EmptyString)].


(** ** A start, by its outcome *)

(** What the three constructor calls of a start come to in [env]. *)
Definition store_result (w : World) (env : gmap string string)
  : option JS.Error :=
  createClient w (env !! "SUPABASE_URL") (env !! "SUPABASE_SERVICE_ROLE_KEY").

Definition genai_result (w : World) (env : gmap string string)
  : option JS.Error :=
  new_GoogleGenerativeAI w (env !! "GOOGLE_GEMINI_API_KEY").

Definition model_result (w : World) : option JS.Error :=
  getGenerativeModel w "gemini-pro".

(** The events of building the data-store client. *)
Definition store_built (env : gmap string string) : list Event :=
  [CreateClient (env !! "SUPABASE_URL") (env !! "SUPABASE_SERVICE_ROLE_KEY");
   ConsoleLog "✅ Supabase client initialized successfully"].

(** The events of building the generative-text model. *)
Definition model_built (env : gmap string string) : list Event :=
  [NewGoogleGenerativeAI (env !! "GOOGLE_GEMINI_API_KEY");
   GetGenerativeModel "gemini-pro";
   ConsoleLog "✅ Google Gemini AI initialized successfully"].

(** The events of [app.listen] and its callback. *)
Definition banner (env : gmap string string) : list Event :=
  [Listen (PORT env);
   ConsoleLog ("✅ Server running on port " ++ port_text env);
   ConsoleLog
     ("🌐 Health check: http://localhost:" ++ port_text env ++ "/health");
   ConsoleLog
     ("🧪 API test: http://localhost:" ++ port_text env ++ "/api/test");
   ConsoleLog
     ("🗄️  Supabase test: http://localhost:" ++ port_text env
        ++ "/api/supabase-test");
   ConsoleLog
     ("🤖 Gemini test: POST http://localhost:" ++ port_text env
        ++ "/api/gemini-test");
   ConsoleLog
     ("📝 Code review: POST http://localhost:" ++ port_text env
        ++ "/api/code-review")].

(** The error lines of the two [catch] blocks of the start. *)
Definition store_failure (error : JS.Error) : Event :=
  ConsoleError
    ("❌ Failed to initialize Supabase client:" ++ " " ++ JS.message error).

Definition model_failure (error : JS.Error) : Event :=
  ConsoleError
    ("❌ Failed to initialize Google Gemini AI:" ++ " " ++ JS.message error).

(** No required key is unusable. *)
Definition configured (env : gmap string string) : Prop :=
  forall key, In key requiredEnvVars -> ~ unusable env key.


(** A world whose data-store constructor rejects the URL. *)
Definition invalid_url_error : JS.Error :=
  JS.mkError "Error" "Invalid supabaseUrl: Must be a valid HTTP or HTTPS URL.".

Definition no_store_world : World :=
  mkWorld (fun env => env) (fun _ _ => Some invalid_url_error)
    (fun _ => None) (fun _ => None)
    (fun _ => QueryResolves (JS.Arr []) None)
    (fun _ _ => GenText "Looks fine.")
    (fun _ => mkDate 2024 3 9 7 5 0 42).

(** A world whose generative-text model cannot be obtained. *)
Definition no_model_error : JS.Error :=
  JS.mkError "Error" "Must provide a model name".

Definition no_model_world : World :=
  mkWorld (fun env => env) (fun _ _ => None)
    (fun _ => None) (fun _ => Some no_model_error)
    (fun _ => QueryResolves (JS.Arr []) None)
    (fun _ _ => GenText "Looks fine.")
    (fun _ => mkDate 2024 3 9 7 5 0 42).

(** ** The routes as a table, and requests in sequence *)


(** Requests handled one after the other; the replies come in the order
    of the requests. *)
Fixpoint serve_all (w : World) (p : Process) (reqs : list Request)
    (log : list Event) : Process * list (option Reply) * list Event :=
  match reqs with
  | [] => (p, [], log)
  | req :: rest =>
      let '(p', reply, log') := serve w p req log in
      let '(p'', replies, log'') := serve_all w p' rest log' in
      (p'', reply :: replies, log'')
  end.

(** Events of the life of the process rather than of a request. *)
Definition is_lifecycle (e : Event) : bool :=
  match e with
  | ProcessExit _ | CreateClient _ _ | NewGoogleGenerativeAI _
  | GetGenerativeModel _ | Listen _ => true
  | _ => false
  end.

Definition is_query (e : Event) : bool :=
  match e with
  | SupabaseSelect _ _ _ => true
  | _ => false
  end.

(** The line the review route logs when it fails. *)
Definition review_error_logged (error : JS.Error) : Event :=
  ConsoleErrorObject "Code review error:" error.

(** A body whose code is an object with an own [toString] property. *)
Definition unprintable_code_body : JS.Value :=
  JS.object [("code", JS.object [("toString", JS.Null)]);
             ("language", JS.Str "python")].

Definition null_prompt_body : JS.Value :=
  JS.object [("prompt", JS.Null)].


(** Every event a refused start can log: the fixed lines, a line for each
    required key, and the exit. *)
Definition refusal_vocabulary : list Event :=
  ([ConsoleError "❌ Missing or invalid environment variables:";
    ConsoleError
      (LF ++ "📝 Please update your server/.env file with valid credentials");
    ConsoleError
      "   Supabase: https://supabase.com/dashboard/project/[your-project]/settings/api";
    ConsoleError "   Google Gemini: https://makersuite.google.com/app/apikey";
    ConsoleError (LF ++ "🔧 To fix this:");
    ConsoleError
      "   1. Get your Supabase credentials from your project dashboard";
    ConsoleError "   2. Get your Google Gemini API key from Google AI Studio";
    ConsoleError "   3. Replace the placeholder values in server/.env";
    ConsoleError
      (LF ++ "⚠️  Server will not start until valid credentials are provided");
    ProcessExit 1]
   ++ List.map names_key requiredEnvVars)%list.

Definition numeric_code_body : JS.Value :=
  JS.object [("code", JS.Num 42)].

(** * Properties *)

(** ** JavaScript values *)

Example to_string_samples :
  JS.to_string (JS.Num (-42)) = Some "-42"
  /\ JS.to_string (JS.Num 0) = Some "0"
  /\ JS.to_string (JS.Arr [JS.Num 1; JS.Null; JS.Str "a"]) = Some "1,,a"
  /\ JS.to_string (JS.Obj ∅) = Some "[object Object]"
  /\ JS.to_string (JS.object [("toString", JS.Num 1)]) = None.
Proof. repeat split; reflexivity. Qed.

(** ** Reading an ISO-8601 timestamp *)

Example toISOString_sample :
  toISOString (mkDate 2024 3 9 7 5 0 42) = "2024-03-09T07:05:00.042Z"
  /\ parse_iso8601 "2024-03-09T07:05:00.042Z"
     = Some (mkDate 2024 3 9 7 5 0 42)
  /\ parse_iso8601 "2024-13-09T07:05:00.042Z" = None
  /\ parse_iso8601 "2024-03-09 07:05:00" = None.
Proof. repeat split; reflexivity. Qed.

(** ** The configuration gate *)

Lemma includes_In (l : list string) (value : string) :
  includes l value = true <-> In value l.
Proof.
  unfold includes. rewrite existsb_exists. split.
  - intros (x & Hx & Heq). apply String.eqb_eq in Heq. now subst.
  - intros H. exists value. split; [assumption | apply String.eqb_refl].
Qed.

Lemma is_missing_unusable (env : gmap string string) (key : string) :
  is_missing env key = true <-> unusable env key.
Proof.
  unfold is_missing, unusable. destruct (env !! key) as [value|].
  - rewrite orb_true_iff, includes_In, String.eqb_eq. split.
    + intros [-> | Hin]; [now right; left | right; right; eauto].
    + intros [Hnone | [Hempty | (v & Hv & Hin)]].
      * discriminate.
      * left. congruence.
      * right. congruence.
  - split; [now left | reflexivity].
Qed.

Lemma missingEnvVars_spec (env : gmap string string) (key : string) :
  In key (missingEnvVars env) <-> In key requiredEnvVars /\ unusable env key.
Proof.
  unfold missingEnvVars. rewrite filter_In, is_missing_unusable. reflexivity.
Qed.

Lemma forEach_console_error (f : string -> string) (l : list string)
    (log : list Event) :
  forEach l (fun x => console_error (f x)) log
  = (Normal tt, (log ++ List.map (fun x => ConsoleError (f x)) l)%list).
Proof.
  revert log. induction l as [|x l IH]; intros log; simpl.
  - unfold ret. now rewrite app_nil_r.
  - unfold bind, console_error, emit at 1. rewrite IH.
    now rewrite <- app_assoc.
Qed.

Lemma startup_refuses (w : World) (env : gmap string string)
    (log : list Event) :
  missingEnvVars env <> [] ->
  startup w env log
  = (Exit 1, (log ++ refusal env ++ [ProcessExit 1])%list).
Proof.
  intros Hne. unfold startup.
  destruct (missingEnvVars env) as [|key rest] eqn:Hmissing; [congruence|].
  change (0 <? length (key :: rest))%nat with true. cbv iota.
  unfold bind at 1. unfold bind at 1. unfold console_error at 1, emit at 1.
  unfold bind at 1. rewrite forEach_console_error.
  unfold bind, console_error, emit, process_exit, refusal. rewrite Hmissing.
  f_equal. unfold names_key.
  repeat rewrite <- app_assoc. simpl. reflexivity.
Qed.

Lemma main_refuses (w : World) (penv : gmap string string) (key : string) :
  In key requiredEnvVars ->
  unusable (dotenv_config w penv) key ->
  main w penv
  = (Exited 1, (refusal (dotenv_config w penv) ++ [ProcessExit 1])%list).
Proof.
  intros Hkey Hbad. unfold main. rewrite startup_refuses; [reflexivity|].
  intros Hnil.
  assert (Hin : In key (missingEnvVars (dotenv_config w penv)))
    by now apply missingEnvVars_spec.
  rewrite Hnil in Hin. exact Hin.
Qed.

(** C1.  In every process environment where, once [dotenv.config()] has
    run, some required key is absent, empty or a placeholder, the process
    ends with exit status 1; all it did before is print error lines,
    among them one naming each such key, so no client was built and the
    port was never bound; and the process answers no request. *)
Theorem config_gate_refuses_to_start (w : World)
    (penv : gmap string string) :
  (exists key, In key requiredEnvVars
               /\ unusable (dotenv_config w penv) key) ->
  exists diagnostic,
    main w penv = (Exited 1, (diagnostic ++ [ProcessExit 1])%list)
    /\ forallb is_console_error diagnostic = true
    /\ (forall port, ~ In (Listen port) (snd (main w penv)))
    /\ (forall key, In key requiredEnvVars ->
                    unusable (dotenv_config w penv) key ->
                    In (names_key key) diagnostic)
    /\ (forall req log,
          serve w (fst (main w penv)) req log = (Exited 1, None, log)).
Proof.
  intros (key & Hreq & Hbad).
  pose proof (main_refuses w penv key Hreq Hbad) as Hmain.
  assert (Hconsole :
            forallb is_console_error (refusal (dotenv_config w penv)) = true).
  { unfold refusal. rewrite !forallb_app. simpl.
    rewrite andb_true_r. apply forallb_forall.
    intros e He. apply in_map_iff in He as (k & <- & _). reflexivity. }
  exists (refusal (dotenv_config w penv)).
  split; [assumption|]. split; [assumption|]. split; [|split].
  - intros port Hin. rewrite Hmain in Hin. cbn [snd] in Hin.
    apply in_app_or in Hin as [Hin | [Hin | []]]; [|discriminate].
    rewrite forallb_forall in Hconsole. apply Hconsole in Hin. discriminate.
  - intros k Hk Hu. unfold refusal. apply in_or_app. right.
    apply in_or_app. left. apply in_map. now apply missingEnvVars_spec.
  - intros req log. rewrite Hmain. reflexivity.
Qed.

Lemma config_gate_refuses_to_start_witness :
  exists diagnostic,
    main calm_world unedited_env
    = (Exited 1, (diagnostic ++ [ProcessExit 1])%list)
    /\ forallb is_console_error diagnostic = true
    /\ (forall port, ~ In (Listen port) (snd (main calm_world unedited_env)))
    /\ (forall key, In key requiredEnvVars ->
                    unusable (dotenv_config calm_world unedited_env) key ->
                    In (names_key key) diagnostic)
    /\ (forall req log,
          serve calm_world (fst (main calm_world unedited_env)) req log
          = (Exited 1, None, log)).
Proof.
  apply (config_gate_refuses_to_start calm_world unedited_env).
  exists "GOOGLE_GEMINI_API_KEY". split.
  - simpl. auto.
  - left. vm_compute. reflexivity.
Defined.

Example refusal_sample :
  List.map names_key (missingEnvVars unedited_env)
  = [ConsoleError "   - SUPABASE_SERVICE_ROLE_KEY";
     ConsoleError "   - GOOGLE_GEMINI_API_KEY"].
Proof. vm_compute. reflexivity. Qed.

(** ** The handlers, step by step *)

Lemma destructuring_object (source : JS.Value) (key : string)
    (log : list Event) :
  JS.nullish source = false ->
  destructuring source key log = (Normal tt, log).
Proof. destruct source; simpl; intros H; try discriminate; reflexivity. Qed.

Lemma generate_run (w : World) (prompt : JS.Value) (log : list Event) :
  generate w prompt log
  = (match generateContent w log prompt with
     | GenRejects error => Throw error
     | GenTextThrows error => Throw error
     | GenText text => Normal text
     end, (log ++ [GenerateContent prompt])%list).
Proof.
  unfold generate, bind, call.
  destruct (generateContent w log prompt); reflexivity.
Qed.

(** A request without usable [code] is answered 400 and nothing else
    happens. *)
Lemma api_code_review_no_code (w : World) (req : Request)
    (log : list Event) :
  JS.nullish (body req) = false ->
  JS.truthy (JS.get (body req) "code") = false ->
  api_code_review w req log = (Normal code_required, log).
Proof.
  intros Hbody Hcode. unfold api_code_review, try_catch, bind.
  rewrite destructuring_object by assumption.
  rewrite Hcode. reflexivity.
Qed.

(** A request with usable [code]: one call to the client, whose outcome
    decides the response. *)
Lemma api_code_review_run (w : World) (req : Request) (log : list Event)
    (l c : string) :
  JS.nullish (body req) = false ->
  JS.truthy (JS.get (body req) "code") = true ->
  JS.to_string (JS.get (body req) "code") = Some c ->
  JS.to_string
    (or_default (JS.get (body req) "language") (JS.Str "javascript"))
  = Some l ->
  let sent := GenerateContent (JS.Str (review_prompt l c)) in
  api_code_review w req log
  = match generateContent w log (JS.Str (review_prompt l c)) with
    | GenText text =>
        (Normal
           (review_ok text
              (or_default (JS.get (body req) "language")
                 (JS.Str "javascript"))
              (new_Date w (log ++ [sent])%list)),
         (log ++ [sent])%list)
    | GenRejects error | GenTextThrows error =>
        (Normal (review_failed error),
         (log ++ [sent; ConsoleErrorObject "Code review error:" error])%list)
    end.
Proof.
  intros Hbody Htruthy Hcode Hlang sent.
  unfold api_code_review, try_catch, bind.
  rewrite destructuring_object by assumption.
  rewrite Htruthy. cbv [negb]. unfold template. rewrite Hlang, Hcode.
  unfold ret at 1. rewrite generate_run.
  destruct (generateContent w log (JS.Str (review_prompt l c)))
    as [error|error|text]; unfold emit, res_json, ret, ask; cbn;
    rewrite <- ?app_assoc; reflexivity.
Qed.

Lemma api_gemini_test_run (w : World) (req : Request) (log : list Event) :
  JS.nullish (body req) = false ->
  let prompt :=
    or_default (JS.get (body req) "prompt") (JS.Str "Hello, how are you?") in
  api_gemini_test w req log
  = (match generateContent w log prompt with
     | GenText text => Normal (gemini_ok prompt text)
     | GenRejects error | GenTextThrows error => Normal (gemini_failed error)
     end, (log ++ [GenerateContent prompt])%list).
Proof.
  intros Hbody prompt. unfold api_gemini_test, try_catch, bind.
  rewrite destructuring_object by assumption.
  rewrite generate_run. fold prompt.
  destruct (generateContent w log prompt); reflexivity.
Qed.

(** ** Timestamps read back *)

Lemma all_from_spec (check : N -> bool) (fuel : nat) (from n : N) :
  all_from fuel from check = true ->
  (from <= n < from + N.of_nat fuel)%N ->
  check n = true.
Proof.
  revert from. induction fuel as [|fuel IH]; intros from Hall Hn.
  - lia.
  - simpl in Hall. apply andb_true_iff in Hall as [Hhere Hrest].
    destruct (N.eq_dec n from) as [->|Hne]; [assumption|].
    apply (IH (N.succ from)); [assumption | lia].
Qed.

Lemma read_digits_append (count : nat) (acc : N) (s rest tail : string)
    (n : N) :
  read_digits count acc s = Some (n, rest) ->
  read_digits count acc (s ++ tail) = Some (n, rest ++ tail).
Proof.
  revert acc s. induction count as [|count IH]; intros acc s; simpl.
  - intros [= -> ->]. reflexivity.
  - destruct s as [|c s]; [discriminate|]. simpl.
    destruct (digit_value c); [apply IH | discriminate].
Qed.

Lemma read_padStart (width : nat) (n : N) (tail : string) :
  pads_back width n = true ->
  read_digits width 0%N (padStart width n ++ tail) = Some (n, tail).
Proof.
  unfold pads_back. intros H.
  destruct (read_digits width 0%N (padStart width n))
    as [[m [|c rest]]|] eqn:Hread; try discriminate.
  apply N.eqb_eq in H as ->.
  apply (read_digits_append _ _ _ _ tail) in Hread. exact Hread.
Qed.

Lemma pads_back_2 (n : N) : (n <= 59)%N -> pads_back 2 n = true.
Proof.
  intros Hn. apply (all_from_spec (pads_back 2) (N.to_nat 60) 0%N).
  - vm_compute. reflexivity.
  - rewrite N2Nat.id. lia.
Qed.

Lemma pads_back_3 (n : N) : (n <= 999)%N -> pads_back 3 n = true.
Proof.
  intros Hn. apply (all_from_spec (pads_back 3) (N.to_nat 1000) 0%N).
  - vm_compute. reflexivity.
  - rewrite N2Nat.id. lia.
Qed.

Lemma pads_back_4 (n : N) : (n <= 9999)%N -> pads_back 4 n = true.
Proof.
  intros Hn. apply (all_from_spec (pads_back 4) (N.to_nat 10000) 0%N).
  - vm_compute. reflexivity.
  - rewrite N2Nat.id. lia.
Qed.

Lemma pads_back_6 (n : N) : (n <= 275760)%N -> pads_back 6 n = true.
Proof.
  intros Hn. apply (all_from_spec (pads_back 6) (N.to_nat 275761) 0%N).
  - vm_compute. reflexivity.
  - rewrite N2Nat.id. lia.
Qed.

Lemma read_year_toISOString (y : N) (tail : string) :
  (y <= 275760)%N ->
  read_year
    ((if (y <=? 9999)%N then padStart 4 y else "+" ++ padStart 6 y) ++ tail)
  = Some (y, tail).
Proof.
  intros Hy. unfold read_year. destruct (N.leb_spec y 9999) as [Hle|Hgt].
  - rewrite read_padStart by (apply pads_back_4; exact Hle). reflexivity.
  - change (read_digits 4 0%N (("+" ++ padStart 6 y) ++ tail)) with
      (@None (N * string)).
    cbn [expect String.append Ascii.eqb Bool.eqb mbind option_bind].
    apply read_padStart, pads_back_6, Hy.
Qed.

Lemma append_assoc (a b c : string) : (a ++ b) ++ c = a ++ b ++ c.
Proof.
  induction a as [|x a IH]; [reflexivity|].
  change (String x ((a ++ b) ++ c) = String x (a ++ b ++ c)).
  f_equal. exact IH.
Qed.

(** Every date in range prints as a timestamp that reads back as itself. *)
Lemma parse_toISOString (d : DateTime) :
  valid_date d = true -> parse_iso8601 (toISOString d) = Some d.
Proof.
  intros Hvalid. pose proof Hvalid as Hranges.
  unfold valid_date in Hranges.
  repeat (apply andb_true_iff in Hranges as [Hranges ?]).
  repeat match goal with H : (_ <=? _)%N = true |- _ =>
    apply N.leb_le in H end.
  destruct d as [y mo dd hh mi ss ms]. cbn [year month day hours minutes
    seconds milliseconds] in *.
  unfold parse_iso8601, toISOString.
  cbn [year month day hours minutes seconds milliseconds].
  rewrite read_year_toISOString by assumption.
  cbn [mbind option_bind]. change (expect "-" ("-" ++ ?s)) with (Some s).
  cbn [mbind option_bind].
  rewrite read_padStart by (apply pads_back_2; lia).
  cbn [mbind option_bind]. change (expect "-" ("-" ++ ?s)) with (Some s).
  cbn [mbind option_bind].
  rewrite read_padStart by (apply pads_back_2; lia).
  cbn [mbind option_bind]. change (expect "T" ("T" ++ ?s)) with (Some s).
  cbn [mbind option_bind].
  rewrite read_padStart by (apply pads_back_2; lia).
  cbn [mbind option_bind]. change (expect ":" (":" ++ ?s)) with (Some s).
  cbn [mbind option_bind].
  rewrite read_padStart by (apply pads_back_2; lia).
  cbn [mbind option_bind]. change (expect ":" (":" ++ ?s)) with (Some s).
  cbn [mbind option_bind].
  rewrite read_padStart by (apply pads_back_2; lia).
  cbn [mbind option_bind]. change (expect "." ("." ++ ?s)) with (Some s).
  cbn [mbind option_bind].
  rewrite read_padStart by (apply pads_back_3; lia).
  cbn [mbind option_bind]. change (expect "Z" "Z") with (Some EmptyString).
  cbn [mbind option_bind].
  rewrite Hvalid. reflexivity.
Qed.

(** ** Requests *)

Lemma serve_review (w : World) (b : JS.Value) (log : list Event) :
  serve w Listening (review_request b) log
  = respond (api_code_review w (review_request b) log).
Proof. reflexivity. Qed.

Lemma serve_gemini (w : World) (b : JS.Value) (log : list Event) :
  serve w Listening (gemini_request b) log
  = respond (api_gemini_test w (gemini_request b) log).
Proof. reflexivity. Qed.

Lemma serve_probe (w : World) (log : list Event) :
  serve w Listening probe_request log = respond (api_supabase_test w log).
Proof. reflexivity. Qed.

(** ** The review route refuses a request without code *)

(** C2.  A POST to /api/code-review whose body has no [code] field is
    answered 400 with an [error] field, and the event log is left as it
    was: the generative-text client is not called. *)
Theorem missing_code_is_rejected (w : World) (b : JS.Value)
    (log : list Event) :
  JS.nullish b = false ->
  JS.get b "code" = JS.Undefined ->
  exists response,
    serve w Listening (review_request b) log
    = (Listening, Some (Json response), log)
    /\ status response = 400
    /\ JS.get (payload response) "error" = JS.Str "Code is required".
Proof.
  intros Hbody Hcode. exists code_required. split; [|split].
  - rewrite serve_review, api_code_review_no_code; try assumption.
    + reflexivity.
    + cbn [body review_request]. rewrite Hcode. reflexivity.
  - reflexivity.
  - reflexivity.
Qed.

Lemma missing_code_is_rejected_witness :
  exists response,
    serve calm_world Listening (review_request (JS.Obj ∅)) []
    = (Listening, Some (Json response), [])
    /\ status response = 400
    /\ JS.get (payload response) "error" = JS.Str "Code is required".
Proof.
  apply (missing_code_is_rejected calm_world (JS.Obj ∅) []); reflexivity.
Defined.

(** The values that fail the test [if (!code)]. *)
Lemma falsy_values (v : JS.Value) :
  JS.truthy v = false
  <-> v = JS.Undefined \/ v = JS.Null \/ v = JS.Bool false
      \/ v = JS.Num 0 \/ v = JS.Str EmptyString.
Proof.
  split.
  - destruct v as [| |[]|n|s| |]; simpl; intros H; try discriminate; auto.
    + apply negb_false_iff, Z.eqb_eq in H. subst. auto.
    + apply negb_false_iff, String.eqb_eq in H. subst. auto 6.
  - intros [->|[->|[->|[->| ->]]]]; reflexivity.
Qed.

(** C9.  The presence check is a truthiness test: a body whose [code] is
    falsy (the empty string, 0, false or null) gets the same 400 answer,
    "Code is required", as the body with the field removed, and the
    generative-text client is not called. *)
Theorem falsy_code_is_rejected (w : World) (fields : gmap string JS.Value)
    (v : JS.Value) (log : list Event) :
  v = JS.Str EmptyString \/ v = JS.Num 0 \/ v = JS.Bool false \/ v = JS.Null ->
  serve w Listening (review_request (JS.Obj (<["code" := v]> fields))) log
  = (Listening, Some (Json code_required), log)
  /\ serve w Listening (review_request (JS.Obj (<["code" := v]> fields))) log
     = serve w Listening (review_request (JS.Obj (delete "code" fields))) log
  /\ prompts_sent
       (snd (serve w Listening
               (review_request (JS.Obj (<["code" := v]> fields))) log))
     = prompts_sent log.
Proof.
  intros Hv.
  assert (Hfalsy : JS.truthy v = false).
  { apply falsy_values. intuition. }
  assert (Hhere :
            serve w Listening
              (review_request (JS.Obj (<["code" := v]> fields))) log
            = (Listening, Some (Json code_required), log)).
  { rewrite serve_review, api_code_review_no_code; try reflexivity.
    cbn [body review_request JS.get]. rewrite lookup_insert_eq. exact Hfalsy. }
  split; [exact Hhere|]. split.
  - rewrite Hhere. rewrite serve_review, api_code_review_no_code;
      try reflexivity.
    cbn [body review_request JS.get]. rewrite lookup_delete_eq. reflexivity.
  - rewrite Hhere. reflexivity.
Qed.

Lemma falsy_code_is_rejected_witness :
  serve calm_world Listening
    (review_request (JS.Obj (<["code" := JS.Num 0]> ∅))) []
  = (Listening, Some (Json code_required), [])
  /\ serve calm_world Listening
       (review_request (JS.Obj (<["code" := JS.Num 0]> ∅))) []
     = serve calm_world Listening
         (review_request (JS.Obj (delete "code" ∅))) []
  /\ prompts_sent
       (snd (serve calm_world Listening
               (review_request (JS.Obj (<["code" := JS.Num 0]> ∅))) []))
     = prompts_sent [].
Proof.
  apply (falsy_code_is_rejected calm_world ∅ (JS.Num 0) []).
  right. left. reflexivity.
Defined.

(** ** The review route relays the generated text *)

Lemma language_occurs_in_prompt (l c : string) :
  occurs_in l (review_prompt l c).
Proof.
  exists "Please review the following ". eexists. unfold review_prompt.
  reflexivity.
Qed.

Lemma code_occurs_in_prompt (l c : string) :
  occurs_in c (review_prompt l c).
Proof.
  exists ("Please review the following " ++ l
            ++ " code and provide constructive feedback:" ++ LF ++ LF
            ++ "Code:" ++ LF ++ "```" ++ l ++ LF).
  eexists. unfold review_prompt.
  rewrite !append_assoc. reflexivity.
Qed.

(** C3.  A POST to /api/code-review with a non-empty [code] string and a
    [language] string, when the client answers the prompt with text [t]:
    the log grows by exactly one call to the client, whose prompt contains
    the code and the language; the answer is 200 with [success: true],
    [review] equal to [t], the [language] of the request, and a
    [timestamp] that reads back as an ISO-8601 date. *)
Theorem review_relays_generated_text (w : World) (b : JS.Value)
    (c l t : string) (log : list Event) :
  JS.nullish b = false ->
  JS.get b "code" = JS.Str c ->
  c <> EmptyString ->
  JS.get b "language" = JS.Str l ->
  generateContent w log (JS.Str (review_prompt l c)) = GenText t ->
  valid_date
    (new_Date w
       (log ++ [GenerateContent (JS.Str (review_prompt l c))])%list)
  = true ->
  exists prompt stamp,
    serve w Listening (review_request b) log
    = (Listening,
       Some (Json (mkResponse 200
                     (JS.object
                        [("success", JS.Bool true);
                         ("review", JS.Str t);
                         ("language", JS.Str l);
                         ("timestamp", JS.Str stamp)]))),
       (log ++ [GenerateContent (JS.Str prompt)])%list)
    /\ occurs_in c prompt
    /\ occurs_in l prompt
    /\ is_Some (parse_iso8601 stamp).
Proof.
  intros Hbody Hcode Hne Hlang Hgen Hdate.
  exists (review_prompt l c).
  exists (toISOString
            (new_Date w
               (log ++ [GenerateContent (JS.Str (review_prompt l c))]))).
  split; [|split; [|split]].
  - rewrite serve_review.
    rewrite (api_code_review_run w (review_request b) log l c).
    + rewrite Hgen. cbn [body review_request]. rewrite Hlang. reflexivity.
    + exact Hbody.
    + cbn [body review_request]. rewrite Hcode. simpl.
      apply negb_true_iff. apply String.eqb_neq. exact Hne.
    + cbn [body review_request]. rewrite Hcode. reflexivity.
    + cbn [body review_request]. rewrite Hlang. reflexivity.
  - apply code_occurs_in_prompt.
  - apply language_occurs_in_prompt.
  - rewrite parse_toISOString by assumption. eexists. reflexivity.
Qed.

Lemma review_relays_generated_text_witness :
  exists prompt stamp,
    serve calm_world Listening (review_request example_body) []
    = (Listening,
       Some (Json (mkResponse 200
                     (JS.object
                        [("success", JS.Bool true);
                         ("review", JS.Str "Looks fine.");
                         ("language", JS.Str "javascript");
                         ("timestamp", JS.Str stamp)]))),
       ([] ++ [GenerateContent (JS.Str prompt)])%list)
    /\ occurs_in "function f(){}" prompt
    /\ occurs_in "javascript" prompt
    /\ is_Some (parse_iso8601 stamp).
Proof.
  apply (review_relays_generated_text calm_world example_body
           "function f(){}" "javascript" "Looks fine." []).
  - reflexivity.
  - vm_compute. reflexivity.
  - discriminate.
  - vm_compute. reflexivity.
  - reflexivity.
  - vm_compute. reflexivity.
Defined.

(** ** The language of a review *)

Lemma prompts_sent_app (log more : list Event) :
  prompts_sent (log ++ more) = (prompts_sent log ++ prompts_sent more)%list.
Proof. unfold prompts_sent. apply omap_app. Qed.

Lemma review_ok_language (t : string) (language : JS.Value)
    (now : DateTime) :
  JS.get (payload (review_ok t language now)) "language" = language.
Proof.
  unfold review_ok, JS.object. cbn [payload JS.get list_to_map foldr
    uncurry fst snd].
  rewrite lookup_insert_ne by discriminate.
  rewrite lookup_insert_ne by discriminate.
  rewrite lookup_insert_eq. reflexivity.
Qed.

(** What the review route does with the language it has settled on. *)
Lemma review_uses_language (w : World) (b : JS.Value) (l c : string)
    (log : list Event) :
  JS.nullish b = false ->
  JS.truthy (JS.get b "code") = true ->
  JS.to_string (JS.get b "code") = Some c ->
  JS.to_string (or_default (JS.get b "language") (JS.Str "javascript"))
  = Some l ->
  prompts_sent (snd (serve w Listening (review_request b) log))
  = (prompts_sent log ++ [JS.Str (review_prompt l c)])%list
  /\ forall t,
       generateContent w log (JS.Str (review_prompt l c)) = GenText t ->
       exists response,
         snd (fst (serve w Listening (review_request b) log))
         = Some (Json response)
         /\ status response = 200
         /\ JS.get (payload response) "language"
            = or_default (JS.get b "language") (JS.Str "javascript").
Proof.
  intros Hbody Htruthy Hcode Hlang.
  rewrite serve_review.
  rewrite (api_code_review_run w (review_request b) log l c)
    by assumption.
  split.
  - destruct (generateContent w log (JS.Str (review_prompt l c)));
      cbn [respond snd]; rewrite prompts_sent_app; reflexivity.
  - intros t Hgen. rewrite Hgen. cbn [respond fst snd].
    eexists. split; [reflexivity|]. split; [reflexivity|].
    apply review_ok_language.
Qed.

(** C6.  A POST to /api/code-review that has code and no [language]: the
    prompt sent to the client is the template filled with "javascript",
    and the response to a successful review has [language: "javascript"]. *)
Theorem language_defaults_to_javascript (w : World) (b : JS.Value)
    (c : string) (log : list Event) :
  JS.nullish b = false ->
  JS.get b "language" = JS.Undefined ->
  JS.truthy (JS.get b "code") = true ->
  JS.to_string (JS.get b "code") = Some c ->
  prompts_sent (snd (serve w Listening (review_request b) log))
  = (prompts_sent log ++ [JS.Str (review_prompt "javascript" c)])%list
  /\ forall t,
       generateContent w log (JS.Str (review_prompt "javascript" c))
       = GenText t ->
       exists response,
         snd (fst (serve w Listening (review_request b) log))
         = Some (Json response)
         /\ status response = 200
         /\ JS.get (payload response) "language" = JS.Str "javascript".
Proof.
  intros Hbody Hlang Htruthy Hcode.
  destruct (review_uses_language w b "javascript" c log) as [Hsent Hok];
    try assumption.
  { rewrite Hlang. reflexivity. }
  split; [exact Hsent|].
  intros t Hgen. destruct (Hok t Hgen) as (response & Hr & Hs & Hl).
  exists response. rewrite Hlang in Hl. auto.
Qed.

Lemma language_defaults_to_javascript_witness :
  prompts_sent
    (snd (serve calm_world Listening (review_request code_only_body) []))
  = (prompts_sent []
       ++ [JS.Str (review_prompt "javascript" "function f(){}")])%list
  /\ forall t,
       generateContent calm_world []
         (JS.Str (review_prompt "javascript" "function f(){}"))
       = GenText t ->
       exists response,
         snd (fst (serve calm_world Listening
                     (review_request code_only_body) []))
         = Some (Json response)
         /\ status response = 200
         /\ JS.get (payload response) "language" = JS.Str "javascript".
Proof.
  apply (language_defaults_to_javascript calm_world code_only_body
           "function f(){}" []); vm_compute; reflexivity.
Defined.

(** How the template literal prints the values a language is meant to
    be: a string as itself, null as the word. *)
Lemma printed_language (s : string) :
  JS.to_string (JS.Str s) = Some s /\ JS.to_string JS.Null = Some "null".
Proof. split; reflexivity. Qed.


(** ** No handler lets an exception escape *)

Ltac split_cases :=
  repeat match goal with
         | |- context [match ?x with _ => _ end] => destruct x eqn:?
         end.

Lemma api_supabase_test_answers (w : World) (log : list Event) :
  exists response log',
    api_supabase_test w log = (Normal response, log').
Proof.
  unfold api_supabase_test, try_catch, bind, call.
  destruct (supabase_query w log) as [error | data [error|]]; cbn; eauto.
Qed.

Lemma api_gemini_test_answers (w : World) (req : Request)
    (log : list Event) :
  exists response log',
    api_gemini_test w req log = (Normal response, log').
Proof.
  destruct (JS.nullish (body req)) eqn:Hbody.
  - unfold api_gemini_test, try_catch, bind.
    destruct (body req); try discriminate; cbn; eauto.
  - rewrite api_gemini_test_run by assumption. split_cases; eauto.
Qed.

Lemma api_code_review_answers (w : World) (req : Request)
    (log : list Event) :
  exists response log',
    api_code_review w req log = (Normal response, log').
Proof.
  destruct (JS.nullish (body req)) eqn:Hbody.
  - unfold api_code_review, try_catch, bind.
    destruct (body req); try discriminate; cbn; eauto.
  - destruct (JS.truthy (JS.get (body req) "code")) eqn:Hcode.
    + destruct (JS.to_string (JS.get (body req) "code")) as [c|] eqn:Hc;
        destruct (JS.to_string
                    (or_default (JS.get (body req) "language")
                       (JS.Str "javascript"))) as [l|] eqn:Hl.
      * rewrite (api_code_review_run w req log l c) by assumption.
        split_cases; eauto.
      * unfold api_code_review, try_catch, bind, template.
        rewrite destructuring_object by assumption.
        rewrite Hcode, Hl. cbn. eauto.
      * unfold api_code_review, try_catch, bind, template.
        rewrite destructuring_object by assumption.
        rewrite Hcode, Hl, Hc. cbn. eauto.
      * unfold api_code_review, try_catch, bind, template.
        rewrite destructuring_object by assumption.
        rewrite Hcode, Hl. cbn. eauto.
    + rewrite api_code_review_no_code by assumption. eauto.
Qed.

(** A serving process answers every request and goes on serving. *)
Lemma serve_answers (w : World) (req : Request) (log : list Event) :
  exists reply log',
    serve w Listening req log = (Listening, Some reply, log').
Proof.
  unfold serve, route.
  destruct (method req).
  - destruct (String.eqb (path req) "/health"); [cbn; eauto|].
    destruct (String.eqb (path req) "/api/test"); [cbn; eauto|].
    destruct (String.eqb (path req) "/api/supabase-test"); [|eauto].
    destruct (api_supabase_test_answers w log) as (r & log' & ->).
    cbn. eauto.
  - destruct (String.eqb (path req) "/api/gemini-test").
    + destruct (api_gemini_test_answers w req log) as (r & log' & ->).
      cbn. eauto.
    + destruct (String.eqb (path req) "/api/code-review"); [|eauto].
      destruct (api_code_review_answers w req log) as (r & log' & ->).
      cbn. eauto.
Qed.

(** ** Failures of the generative-text client *)

Lemma review_failed_fields (e : JS.Error) :
  status (review_failed e) = 500
  /\ JS.get (payload (review_failed e)) "error"
     = JS.Str "Failed to generate code review"
  /\ JS.get (payload (review_failed e)) "message" = JS.Str (JS.message e).
Proof.
  unfold review_failed, JS.object. cbn [status payload JS.get list_to_map
    foldr uncurry fst snd].
  split; [reflexivity|]. split.
  - rewrite lookup_insert_eq. reflexivity.
  - rewrite lookup_insert_ne by discriminate.
    rewrite lookup_insert_eq. reflexivity.
Qed.

Lemma gemini_failed_fields (e : JS.Error) :
  status (gemini_failed e) = 500
  /\ JS.get (payload (gemini_failed e)) "status" = JS.Str "error"
  /\ JS.get (payload (gemini_failed e)) "error" = JS.Str (JS.message e).
Proof.
  unfold gemini_failed, JS.object. cbn [status payload JS.get list_to_map
    foldr uncurry fst snd].
  split; [reflexivity|]. split.
  - rewrite lookup_insert_eq. reflexivity.
  - rewrite lookup_insert_ne by discriminate.
    rewrite lookup_insert_ne by discriminate.
    rewrite lookup_insert_eq. reflexivity.
Qed.

(** C5.  When the call to the generative-text client fails with an error,
    by rejection or when the text is read, /api/code-review answers 500
    with an [error] field and the message of the error, /api/gemini-test
    answers 500 with [status: "error"] and the message of the error, and
    the process goes on serving: whatever request comes next is answered. *)
Theorem generative_failure_is_reported (w : World) (b : JS.Value)
    (e : JS.Error) (log : list Event) :
  JS.nullish b = false ->
  (forall l c,
     JS.truthy (JS.get b "code") = true ->
     JS.to_string (JS.get b "code") = Some c ->
     JS.to_string (or_default (JS.get b "language") (JS.Str "javascript"))
     = Some l ->
     fails_with (generateContent w log (JS.Str (review_prompt l c))) e ->
     exists response,
       serve w Listening (review_request b) log
       = (Listening, Some (Json response),
          (log ++ [GenerateContent (JS.Str (review_prompt l c));
                   ConsoleErrorObject "Code review error:" e])%list)
       /\ status response = 500
       /\ JS.get (payload response) "error"
          = JS.Str "Failed to generate code review"
       /\ JS.get (payload response) "message" = JS.Str (JS.message e))
  /\ (forall prompt,
        prompt = or_default (JS.get b "prompt")
                   (JS.Str "Hello, how are you?") ->
        fails_with (generateContent w log prompt) e ->
        exists response,
          serve w Listening (gemini_request b) log
          = (Listening, Some (Json response),
             (log ++ [GenerateContent prompt])%list)
          /\ status response = 500
          /\ JS.get (payload response) "status" = JS.Str "error"
          /\ JS.get (payload response) "error" = JS.Str (JS.message e))
  /\ (forall next log',
        exists reply log'',
          serve w Listening next log' = (Listening, Some reply, log'')).
Proof.
  intros Hbody. split; [|split].
  - intros l c Htruthy Hcode Hlang Hfail.
    exists (review_failed e). split; [|apply review_failed_fields].
    rewrite serve_review.
    rewrite (api_code_review_run w (review_request b) log l c)
      by assumption.
    destruct Hfail as [-> | ->]; reflexivity.
  - intros prompt -> Hfail.
    exists (gemini_failed e). split; [|apply gemini_failed_fields].
    rewrite serve_gemini.
    rewrite (api_gemini_test_run w (gemini_request b) log) by assumption.
    cbn [body gemini_request].
    destruct Hfail as [-> | ->]; reflexivity.
  - intros next log'. apply serve_answers.
Qed.

Lemma generative_failure_is_reported_witness :
  (exists response,
     serve exhausted_world Listening (review_request example_body) []
     = (Listening, Some (Json response),
        ([] ++ [GenerateContent
                  (JS.Str (review_prompt "javascript" "function f(){}"));
                ConsoleErrorObject "Code review error:" quota_error])%list)
     /\ status response = 500
     /\ JS.get (payload response) "error"
        = JS.Str "Failed to generate code review"
     /\ JS.get (payload response) "message"
        = JS.Str (JS.message quota_error))
  /\ (exists response,
        serve exhausted_world Listening (gemini_request example_body) []
        = (Listening, Some (Json response),
           ([] ++ [GenerateContent (JS.Str "Hello, how are you?")])%list)
        /\ status response = 500
        /\ JS.get (payload response) "status" = JS.Str "error"
        /\ JS.get (payload response) "error"
           = JS.Str (JS.message quota_error)).
Proof.
  destruct (generative_failure_is_reported exhausted_world example_body
              quota_error [] eq_refl) as (Hreview & Hgemini & _).
  split.
  - apply (Hreview "javascript" "function f(){}");
      [vm_compute; reflexivity .. | left; reflexivity].
  - apply (Hgemini (JS.Str "Hello, how are you?"));
      [vm_compute; reflexivity | left; reflexivity].
Defined.

(** ** The generative-text test route *)

Lemma gemini_ok_fields (prompt : JS.Value) (t : string) :
  status (gemini_ok prompt t) = 200
  /\ JS.get (payload (gemini_ok prompt t)) "status" = JS.Str "success"
  /\ JS.get (payload (gemini_ok prompt t)) "prompt" = prompt
  /\ JS.get (payload (gemini_ok prompt t)) "response" = JS.Str t.
Proof.
  unfold gemini_ok, JS.object. cbn [status payload JS.get list_to_map
    foldr uncurry fst snd].
  split; [reflexivity|]. split; [|split].
  - rewrite lookup_insert_eq. reflexivity.
  - rewrite !lookup_insert_ne by discriminate.
    rewrite lookup_insert_eq. reflexivity.
  - rewrite !lookup_insert_ne by discriminate.
    rewrite lookup_insert_eq. reflexivity.
Qed.

(** C7.  A POST to /api/gemini-test whose body has a [prompt] string [p]
    makes one call to the client, with [p] itself; when the client
    answers with a text, the response is 200 with [status: "success"],
    [prompt] equal to [p] and [response] equal to the text.  With no
    [prompt] in the body the call is made with the fixed default prompt. *)
Theorem gemini_test_forwards_prompt (w : World) (b : JS.Value)
    (log : list Event) :
  JS.nullish b = false ->
  (forall p,
     JS.get b "prompt" = JS.Str p ->
     snd (serve w Listening (gemini_request b) log)
     = (log ++ [GenerateContent (JS.Str p)])%list
     /\ forall t,
          generateContent w log (JS.Str p) = GenText t ->
          exists response,
            snd (fst (serve w Listening (gemini_request b) log))
            = Some (Json response)
            /\ status response = 200
            /\ JS.get (payload response) "status" = JS.Str "success"
            /\ JS.get (payload response) "prompt" = JS.Str p
            /\ JS.get (payload response) "response" = JS.Str t)
  /\ (JS.get b "prompt" = JS.Undefined ->
      snd (serve w Listening (gemini_request b) log)
      = (log ++ [GenerateContent (JS.Str "Hello, how are you?")])%list).
Proof.
  intros Hbody.
  rewrite serve_gemini.
  rewrite (api_gemini_test_run w (gemini_request b) log) by assumption.
  cbn [body gemini_request]. split.
  - intros p Hp. rewrite Hp. cbn [or_default]. split.
    + destruct (generateContent w log (JS.Str p)); reflexivity.
    + intros t ->. exists (gemini_ok (JS.Str p) t).
      split; [reflexivity | apply gemini_ok_fields].
  - intros ->. cbn [or_default].
    destruct (generateContent w log (JS.Str "Hello, how are you?"));
      reflexivity.
Qed.

Lemma gemini_test_forwards_prompt_witness :
  (snd (serve calm_world Listening (gemini_request prompt_body) [])
   = ([] ++ [GenerateContent (JS.Str "Say hi")])%list
   /\ exists response,
        snd (fst (serve calm_world Listening (gemini_request prompt_body) []))
        = Some (Json response)
        /\ status response = 200
        /\ JS.get (payload response) "status" = JS.Str "success"
        /\ JS.get (payload response) "prompt" = JS.Str "Say hi"
        /\ JS.get (payload response) "response" = JS.Str "Looks fine.")
  /\ snd (serve calm_world Listening (gemini_request (JS.Obj ∅)) [])
     = ([] ++ [GenerateContent (JS.Str "Hello, how are you?")])%list.
Proof.
  split.
  - destruct (gemini_test_forwards_prompt calm_world prompt_body []
                eq_refl) as [Hgiven _].
    destruct (Hgiven "Say hi") as [Hsent Hok]; [vm_compute; reflexivity|].
    split; [exact Hsent | apply Hok; reflexivity].
  - destruct (gemini_test_forwards_prompt calm_world (JS.Obj ∅) []
                eq_refl) as [_ Habsent].
    apply Habsent. reflexivity.
Defined.

(** ** Health *)

(** A process that is serving has passed the gate: no required key was
    unusable. *)
Lemma listening_passed_the_gate (w : World) (penv : gmap string string) :
  fst (main w penv) = Listening ->
  forall key, In key requiredEnvVars ->
              ~ unusable (dotenv_config w penv) key.
Proof.
  intros Hup key Hkey Hbad.
  rewrite (main_refuses w penv key Hkey Hbad) in Hup. discriminate.
Qed.

(** C8.  Once the process has started, a GET of /health is answered 200
    with [status: "OK"] and the fixed "Connected" strings for both
    services, and the event log is left as it was: neither service is
    called. *)
Theorem health_is_static (w : World) (penv : gmap string string)
    (req : Request) (log : list Event) :
  fst (main w penv) = Listening ->
  method req = GET ->
  path req = "/health" ->
  serve w (fst (main w penv)) req log
  = (Listening, Some (Json (mkResponse 200 health_payload)), log)
  /\ JS.get health_payload "status" = JS.Str "OK"
  /\ JS.get (JS.get health_payload "services") "supabase"
     = JS.Str "✅ Connected"
  /\ JS.get (JS.get health_payload "services") "gemini"
     = JS.Str "✅ Connected"
  /\ List.filter is_probe (snd (serve w (fst (main w penv)) req log))
     = List.filter is_probe log.
Proof.
  intros Hup Hmethod Hpath.
  assert (Hserve : serve w (fst (main w penv)) req log
                   = (Listening, Some (Json (mkResponse 200 health_payload)),
                      log)).
  { rewrite Hup. unfold serve, route. rewrite Hmethod, Hpath. reflexivity. }
  split; [exact Hserve|]. rewrite Hserve.
  repeat split; vm_compute; reflexivity.
Qed.

Lemma health_is_static_witness :
  serve calm_world (fst (main calm_world edited_env)) health_request []
  = (Listening, Some (Json (mkResponse 200 health_payload)), [])
  /\ JS.get health_payload "status" = JS.Str "OK"
  /\ JS.get (JS.get health_payload "services") "supabase"
     = JS.Str "✅ Connected"
  /\ JS.get (JS.get health_payload "services") "gemini"
     = JS.Str "✅ Connected"
  /\ List.filter is_probe
       (snd (serve calm_world (fst (main calm_world edited_env))
               health_request []))
     = List.filter is_probe [].
Proof.
  apply (health_is_static calm_world edited_env health_request []).
  - vm_compute. reflexivity.
  - reflexivity.
  - reflexivity.
Defined.

Example startup_sample :
  main calm_world edited_env
  = (Listening,
     [CreateClient (Some "https://abc.supabase.co") (Some "service-role-key");
      ConsoleLog "✅ Supabase client initialized successfully";
      NewGoogleGenerativeAI (Some "gemini-key");
      GetGenerativeModel "gemini-pro";
      ConsoleLog "✅ Google Gemini AI initialized successfully";
      Listen (JS.Str "3002");
      ConsoleLog "✅ Server running on port 3002";
      ConsoleLog "🌐 Health check: http://localhost:3002/health";
      ConsoleLog "🧪 API test: http://localhost:3002/api/test";
      ConsoleLog "🗄️  Supabase test: http://localhost:3002/api/supabase-test";
      ConsoleLog "🤖 Gemini test: POST http://localhost:3002/api/gemini-test";
      ConsoleLog "📝 Code review: POST http://localhost:3002/api/code-review"]).
Proof. vm_compute. reflexivity. Qed.

(** ** The data-store probe *)





(** ** Languages that are not strings *)


Example empty_language_sample :
  serve calm_world Listening (review_request empty_language_body) []
  = (Listening,
     Some (Json (review_ok "Looks fine." (JS.Str EmptyString)
                   (mkDate 2024 3 9 7 5 0 42))),
     [GenerateContent
        (JS.Str (review_prompt EmptyString "function f(){}"))]).
Proof. vm_compute. reflexivity. Qed.


(** * Further properties of the start *)

Lemma configured_no_missing (env : gmap string string) :
  configured env <-> missingEnvVars env = [].
Proof.
  unfold configured. split.
  - intros Hok. destruct (missingEnvVars env) as [|key rest] eqn:Hmissing;
      [reflexivity|].
    assert (Hin : In key (missingEnvVars env))
      by (rewrite Hmissing; now left).
    apply missingEnvVars_spec in Hin as [Hreq Hbad].
    destruct (Hok key Hreq Hbad).
  - intros Hnil key Hreq Hbad.
    assert (Hin : In key (missingEnvVars env))
      by now apply missingEnvVars_spec.
    rewrite Hnil in Hin. exact Hin.
Qed.

(** A start that passes the gate, by what the constructors do. *)
Lemma main_configured (w : World) (penv : gmap string string) :
  let env := dotenv_config w penv in
  configured env ->
  main w penv
  = match store_result w env with
    | Some error =>
        (Exited 1,
         [CreateClient (env !! "SUPABASE_URL")
            (env !! "SUPABASE_SERVICE_ROLE_KEY");
          store_failure error; ProcessExit 1])
    | None =>
        match genai_result w env with
        | Some error =>
            (Exited 1,
             (store_built env
                ++ [NewGoogleGenerativeAI (env !! "GOOGLE_GEMINI_API_KEY");
                    model_failure error; ProcessExit 1])%list)
        | None =>
            match model_result w with
            | Some error =>
                (Exited 1,
                 (store_built env
                    ++ [NewGoogleGenerativeAI
                          (env !! "GOOGLE_GEMINI_API_KEY");
                        GetGenerativeModel "gemini-pro";
                        model_failure error; ProcessExit 1])%list)
            | None =>
                (Listening,
                 (store_built env ++ model_built env ++ banner env)%list)
            end
        end
    end.
Proof.
  intros env Hok. apply configured_no_missing in Hok.
  unfold main, startup. fold env. rewrite Hok.
  change (0 <? length (@nil string))%nat with false. cbv iota.
  unfold store_result, genai_result, model_result.
  destruct (createClient w (env !! "SUPABASE_URL")
              (env !! "SUPABASE_SERVICE_ROLE_KEY")) as [e1|]; [reflexivity|].
  destruct (new_GoogleGenerativeAI w (env !! "GOOGLE_GEMINI_API_KEY"))
    as [e2|]; [reflexivity|].
  destruct (getGenerativeModel w "gemini-pro") as [e3|]; reflexivity.
Qed.

Lemma gate_decided (env : gmap string string) :
  configured env
  \/ exists key, In key requiredEnvVars /\ unusable env key.
Proof.
  destruct (missingEnvVars env) as [|key rest] eqn:Hmissing.
  - left. now apply configured_no_missing.
  - right. exists key. apply missingEnvVars_spec. rewrite Hmissing. now left.
Qed.




(** X3.  When the gate is passed and the data-store constructor throws,
    the process prints the constructor's message after the fixed label
    and exits with status 1: the generative-text client is never
    constructed and the port is never bound. *)
Theorem store_failure_ends_start (w : World) (penv : gmap string string)
    (e : JS.Error) :
  configured (dotenv_config w penv) ->
  store_result w (dotenv_config w penv) = Some e ->
  main w penv
  = (Exited 1,
     [CreateClient (dotenv_config w penv !! "SUPABASE_URL")
        (dotenv_config w penv !! "SUPABASE_SERVICE_ROLE_KEY");
      ConsoleError
        ("❌ Failed to initialize Supabase client:" ++ " " ++ JS.message e);
      ProcessExit 1]).
Proof.
  intros Hok Hstore.
  pose proof (main_configured w penv Hok) as Hmain. cbv zeta in Hmain.
  rewrite Hstore in Hmain. exact Hmain.
Qed.

Lemma store_failure_ends_start_witness :
  main no_store_world edited_env
  = (Exited 1,
     [CreateClient (dotenv_config no_store_world edited_env !! "SUPABASE_URL")
        (dotenv_config no_store_world edited_env
           !! "SUPABASE_SERVICE_ROLE_KEY");
      ConsoleError
        ("❌ Failed to initialize Supabase client:" ++ " "
           ++ JS.message invalid_url_error);
      ProcessExit 1]).
Proof.
  apply (store_failure_ends_start no_store_world edited_env
           invalid_url_error).
  - apply configured_no_missing. vm_compute. reflexivity.
  - reflexivity.
Defined.

(** X4.  When the gate is passed and the data-store client is built, a
    failure of the generative-text constructor or of
    [getGenerativeModel] ends the process with status 1 after the
    data-store client was announced: the message follows the fixed label,
    and the port is never bound. *)
Theorem model_failure_ends_start (w : World) (penv : gmap string string)
    (e : JS.Error) :
  configured (dotenv_config w penv) ->
  store_result w (dotenv_config w penv) = None ->
  (genai_result w (dotenv_config w penv) = Some e ->
   main w penv
   = (Exited 1,
      (store_built (dotenv_config w penv)
         ++ [NewGoogleGenerativeAI
               (dotenv_config w penv !! "GOOGLE_GEMINI_API_KEY");
             ConsoleError
               ("❌ Failed to initialize Google Gemini AI:" ++ " "
                  ++ JS.message e);
             ProcessExit 1])%list))
  /\ (genai_result w (dotenv_config w penv) = None ->
      model_result w = Some e ->
      main w penv
      = (Exited 1,
         (store_built (dotenv_config w penv)
            ++ [NewGoogleGenerativeAI
                  (dotenv_config w penv !! "GOOGLE_GEMINI_API_KEY");
                GetGenerativeModel "gemini-pro";
                ConsoleError
                  ("❌ Failed to initialize Google Gemini AI:" ++ " "
                     ++ JS.message e);
                ProcessExit 1])%list)).
Proof.
  intros Hok Hstore.
  pose proof (main_configured w penv Hok) as Hmain. cbv zeta in Hmain.
  rewrite Hstore in Hmain. split.
  - intros Hgenai. rewrite Hgenai in Hmain. exact Hmain.
  - intros Hgenai Hmodel. rewrite Hgenai, Hmodel in Hmain. exact Hmain.
Qed.

Lemma model_failure_ends_start_witness :
  main no_model_world edited_env
  = (Exited 1,
     (store_built (dotenv_config no_model_world edited_env)
        ++ [NewGoogleGenerativeAI
              (dotenv_config no_model_world edited_env
                 !! "GOOGLE_GEMINI_API_KEY");
            GetGenerativeModel "gemini-pro";
            ConsoleError
              ("❌ Failed to initialize Google Gemini AI:" ++ " "
                 ++ JS.message no_model_error);
            ProcessExit 1])%list).
Proof.
  destruct (model_failure_ends_start no_model_world edited_env
              no_model_error) as [_ Hmodel].
  - apply configured_no_missing. vm_compute. reflexivity.
  - reflexivity.
  - apply Hmodel; reflexivity.
Defined.

Lemma is_missing_insert_other (env : gmap string string)
    (name value key : string) :
  name <> key ->
  is_missing (<[name := value]> env) key = is_missing env key.
Proof.
  intros Hne. unfold is_missing. now rewrite lookup_insert_ne.
Qed.

Lemma is_missing_delete_other (env : gmap string string)
    (name key : string) :
  name <> key ->
  is_missing (delete name env) key = is_missing env key.
Proof.
  intros Hne. unfold is_missing. now rewrite lookup_delete_ne.
Qed.

(** X5.  Only the three required variables decide the gate: setting a
    variable of another name to any value, or removing it, changes
    neither the list of missing keys nor whether the gate is passed. *)
Theorem other_variables_do_not_decide (env : gmap string string)
    (name value : string) :
  ~ In name requiredEnvVars ->
  missingEnvVars (<[name := value]> env) = missingEnvVars env
  /\ missingEnvVars (delete name env) = missingEnvVars env
  /\ (configured (<[name := value]> env) <-> configured env)
  /\ (configured (delete name env) <-> configured env).
Proof.
  intros Hother.
  assert (Hset : missingEnvVars (<[name := value]> env) = missingEnvVars env).
  { unfold missingEnvVars. apply filter_ext_in. intros key Hkey.
    apply is_missing_insert_other. intros ->. contradiction. }
  assert (Hdel : missingEnvVars (delete name env) = missingEnvVars env).
  { unfold missingEnvVars. apply filter_ext_in. intros key Hkey.
    apply is_missing_delete_other. intros ->. contradiction. }
  split; [exact Hset|]. split; [exact Hdel|].
  rewrite !configured_no_missing, Hset, Hdel. tauto.
Qed.

Lemma other_variables_do_not_decide_witness :
  missingEnvVars
    (<["SUPABASE_ANON_KEY" := "your_supabase_anon_key_here"]> edited_env)
  = missingEnvVars edited_env
  /\ missingEnvVars (delete "SUPABASE_ANON_KEY" edited_env)
     = missingEnvVars edited_env
  /\ (configured
        (<["SUPABASE_ANON_KEY" := "your_supabase_anon_key_here"]> edited_env)
      <-> configured edited_env)
  /\ (configured (delete "SUPABASE_ANON_KEY" edited_env)
      <-> configured edited_env).
Proof.
  apply (other_variables_do_not_decide edited_env "SUPABASE_ANON_KEY"
           "your_supabase_anon_key_here").
  simpl. intros [H|[H|[H|[]]]]; discriminate H.
Defined.


Lemma names_key_inj (k1 k2 : string) : names_key k1 = names_key k2 -> k1 = k2.
Proof.
  unfold names_key. intros [= H]. exact H.
Qed.

Ltac not_a_key_line H :=
  unfold names_key, store_failure, model_failure in H;
  first [ discriminate H
        | injection H as H; cbv in H; discriminate H ].

Lemma refusal_names (env : gmap string string) (key : string) :
  In (names_key key) (refusal env) <-> In key (missingEnvVars env).
Proof.
  unfold refusal. rewrite !in_app_iff. split.
  - intros [Hhead | [Hkeys | Htail]].
    + destruct Hhead as [H | []]. not_a_key_line H.
    + apply in_map_iff in Hkeys as (k & Heq & Hin).
      apply names_key_inj in Heq. now subst.
    + cbn [In] in Htail.
      repeat (destruct Htail as [H | Htail]; [not_a_key_line H|]).
      destruct Htail.
  - intros Hin. right. left. now apply in_map.
Qed.

(** X6.  Whatever the environment and the world, a line [   - KEY] is
    printed on the error stream exactly when KEY is a required key that
    is unusable: no usable key and no other variable is ever named, and
    no other line of the output has this form. *)
Theorem diagnostic_names_exactly_unusable_keys (w : World)
    (penv : gmap string string) (key : string) :
  In (ConsoleError ("   - " ++ key)) (snd (main w penv))
  <-> In key requiredEnvVars /\ unusable (dotenv_config w penv) key.
Proof.
  change (ConsoleError ("   - " ++ key)) with (names_key key).
  destruct (gate_decided (dotenv_config w penv)) as [Hok | (k & Hreq & Hbad)].
  - split; [|intros [Hkey Hunusable]; destruct (Hok key Hkey Hunusable)].
    intros Hin. exfalso.
    pose proof (main_configured w penv Hok) as Hmain. cbv zeta in Hmain.
    rewrite Hmain in Hin. clear Hmain.
    unfold store_built, model_built, banner in Hin.
    destruct (store_result w (dotenv_config w penv));
      [|destruct (genai_result w (dotenv_config w penv));
        [|destruct (model_result w)]];
      cbn [snd app In] in Hin;
      repeat (destruct Hin as [H | Hin]; [not_a_key_line H|]);
      destruct Hin.
  - rewrite (main_refuses w penv k Hreq Hbad). cbn [snd].
    rewrite in_app_iff, refusal_names, missingEnvVars_spec.
    split; [|tauto].
    intros [Hin | [H | []]]; [exact Hin | discriminate H].
Qed.



(** * Further properties of the routes *)




(** The review route, in all its cases. *)
Lemma api_code_review_cases (w : World) (req : Request) (log : list Event) :
  api_code_review w req log = (Normal code_required, log)
  \/ (exists e,
        api_code_review w req log
        = (Normal (review_failed e), (log ++ [review_error_logged e])%list))
  \/ (exists p t language now,
        generateContent w log (JS.Str p) = GenText t
        /\ api_code_review w req log
           = (Normal (review_ok t language now),
              (log ++ [GenerateContent (JS.Str p)])%list))
  \/ (exists p e,
        fails_with (generateContent w log (JS.Str p)) e
        /\ api_code_review w req log
           = (Normal (review_failed e),
              (log ++ [GenerateContent (JS.Str p);
                       review_error_logged e])%list)).
Proof.
  destruct (JS.nullish (body req)) eqn:Hbody.
  - right. left. unfold api_code_review, try_catch, bind.
    destruct (body req); try discriminate; eexists; reflexivity.
  - destruct (JS.truthy (JS.get (body req) "code")) eqn:Hcode.
    + destruct (JS.to_string (JS.get (body req) "code")) as [c|] eqn:Hc;
        destruct (JS.to_string
                    (or_default (JS.get (body req) "language")
                       (JS.Str "javascript"))) as [l|] eqn:Hl.
      * rewrite (api_code_review_run w req log l c) by assumption.
        destruct (generateContent w log (JS.Str (review_prompt l c)))
          as [e|e|t] eqn:Hgen.
        -- right. right. right. exists (review_prompt l c), e.
           split; [left; exact Hgen | reflexivity].
        -- right. right. right. exists (review_prompt l c), e.
           split; [right; exact Hgen | reflexivity].
        -- right. right. left. exists (review_prompt l c), t. eauto.
      * right. left. unfold api_code_review, try_catch, bind, template.
        rewrite destructuring_object by assumption.
        rewrite Hcode, Hl. eexists. reflexivity.
      * right. left. unfold api_code_review, try_catch, bind, template.
        rewrite destructuring_object by assumption.
        rewrite Hcode, Hl, Hc. eexists. reflexivity.
      * right. left. unfold api_code_review, try_catch, bind, template.
        rewrite destructuring_object by assumption.
        rewrite Hcode, Hl. eexists. reflexivity.
    + left. now apply api_code_review_no_code.
Qed.


(** X10.  When the code is there but it or the language cannot be
    converted to a string -- an object with an own [toString] property --
    the template literal throws: the request is answered 500 with the
    message of the TypeError, the error is logged, and the client is not
    called. *)
Theorem unprintable_input_is_a_500 (w : World) (b : JS.Value)
    (log : list Event) :
  JS.nullish b = false ->
  JS.truthy (JS.get b "code") = true ->
  JS.to_string (JS.get b "code") = None
  \/ JS.to_string (or_default (JS.get b "language") (JS.Str "javascript"))
     = None ->
  serve w Listening (review_request b) log
  = (Listening, Some (Json (review_failed JS.cannot_convert)),
     (log ++ [ConsoleErrorObject "Code review error:" JS.cannot_convert])%list)
  /\ JS.get (payload (review_failed JS.cannot_convert)) "message"
     = JS.Str "Cannot convert object to primitive value"
  /\ prompts_sent (snd (serve w Listening (review_request b) log))
     = prompts_sent log.
Proof.
  intros Hbody Hcode Hbad.
  assert (Hrun : serve w Listening (review_request b) log
                 = (Listening, Some (Json (review_failed JS.cannot_convert)),
                    (log ++ [ConsoleErrorObject "Code review error:"
                               JS.cannot_convert])%list)).
  { rewrite serve_review.
    unfold api_code_review, try_catch, bind, template.
    cbn [body review_request].
    rewrite destructuring_object by assumption. rewrite Hcode.
    destruct Hbad as [Hc | Hl].
    - rewrite Hc.
      destruct (JS.to_string
                  (or_default (JS.get b "language") (JS.Str "javascript")));
        reflexivity.
    - rewrite Hl. reflexivity. }
  split; [exact Hrun|]. split.
  - apply review_failed_fields.
  - rewrite Hrun. cbn [snd]. rewrite prompts_sent_app. cbn.
    now rewrite app_nil_r.
Qed.

Lemma unprintable_input_is_a_500_witness :
  serve calm_world Listening (review_request unprintable_code_body) []
  = (Listening, Some (Json (review_failed JS.cannot_convert)),
     ([] ++ [ConsoleErrorObject "Code review error:" JS.cannot_convert])%list)
  /\ JS.get (payload (review_failed JS.cannot_convert)) "message"
     = JS.Str "Cannot convert object to primitive value"
  /\ prompts_sent
       (snd (serve calm_world Listening
               (review_request unprintable_code_body) []))
     = prompts_sent [].
Proof.
  apply (unprintable_input_is_a_500 calm_world unprintable_code_body []).
  - reflexivity.
  - vm_compute. reflexivity.
  - left. vm_compute. reflexivity.
Defined.

Lemma api_gemini_test_added (w : World) (req : Request) (log : list Event) :
  exists response added,
    api_gemini_test w req log = (Normal response, (log ++ added)%list)
    /\ (added = [] \/ exists v, added = [GenerateContent v]).
Proof.
  destruct (JS.nullish (body req)) eqn:Hbody.
  - unfold api_gemini_test, try_catch, bind.
    destruct (body req); try discriminate;
      eexists; exists []; rewrite app_nil_r; split;
      solve [reflexivity | now left].
  - rewrite api_gemini_test_run by assumption.
    destruct (generateContent w log _); eexists; eexists;
      split; solve [reflexivity | right; eauto].
Qed.

(** What one request adds to the log, by its verb. *)
Lemma serve_added (w : World) (req : Request) (log : list Event) :
  exists reply added,
    serve w Listening req log = (Listening, Some reply, (log ++ added)%list)
    /\ match method req with
       | GET => added = [] \/ added = [probe_event]
       | POST =>
           added = []
           \/ (exists e, added = [review_error_logged e])
           \/ (exists v, added = [GenerateContent v])
           \/ (exists v e, added = [GenerateContent v; review_error_logged e])
       end.
Proof.
  unfold serve, route. destruct (method req).
  - destruct (String.eqb (path req) "/health");
      [eexists; exists []; rewrite app_nil_r; split;
       [reflexivity | now left]|].
    destruct (String.eqb (path req) "/api/test");
      [eexists; exists []; rewrite app_nil_r; split;
       [reflexivity | now left]|].
    destruct (String.eqb (path req) "/api/supabase-test");
      [|eexists; exists []; rewrite app_nil_r; split;
        [reflexivity | now left]].
    unfold api_supabase_test, try_catch, bind, call.
    destruct (supabase_query w log) as [e | data [e|]];
      eexists; exists [probe_event]; split;
      solve [reflexivity | now right].
  - destruct (String.eqb (path req) "/api/gemini-test").
    + destruct (api_gemini_test_added w req log)
        as (response & added & -> & Hadded).
      exists (Json response), added. split; [reflexivity|].
      destruct Hadded as [-> | Hcall]; [now left | right; right; now left].
    + destruct (String.eqb (path req) "/api/code-review");
        [|eexists; exists []; rewrite app_nil_r; split;
          [reflexivity | now left]].
      destruct (api_code_review_cases w req log)
        as [-> | [(e & ->) | [(p & t & language & now & Hgen & ->)
                             | (p & e & Hfail & ->)]]].
      * eexists; exists []; rewrite app_nil_r; split;
          [reflexivity | now left].
      * eexists; eexists; split; [reflexivity|]. right. left. eauto.
      * eexists; eexists; split; [reflexivity|]. right. right. left. eauto.
      * eexists; eexists; split; [reflexivity|]. right. right. right. eauto.
Qed.

(** X11.  A request never does more than its route: whatever the request
    and the world, the log only grows; at most one call goes to an
    external service; a GET never calls the generative-text client and a
    POST never queries the data store; and no request builds a client,
    binds a port or exits the process. *)
Theorem requests_have_bounded_effects (w : World) (req : Request)
    (log : list Event) :
  exists added,
    snd (serve w Listening req log) = (log ++ added)%list
    /\ (length (List.filter is_probe added) <= 1)%nat
    /\ List.filter is_lifecycle added = []
    /\ (method req = GET -> prompts_sent added = [])
    /\ (method req = POST -> List.filter is_query added = []).
Proof.
  destruct (serve_added w req log) as (reply & added & Hserve & Hshape).
  exists added. rewrite Hserve. split; [reflexivity|].
  destruct (method req).
  - destruct Hshape as [-> | ->]; cbn; repeat split; auto; discriminate.
  - destruct Hshape as [-> | [(e & ->) | [(v & ->) | (v & e & ->)]]];
      cbn; repeat split; auto; discriminate.
Qed.

Lemma serve_effects (w : World) (req : Request) (log : list Event) :
  exists reply added,
    serve w Listening req log = (Listening, Some reply, (log ++ added)%list)
    /\ (length (List.filter is_probe added) <= 1)%nat
    /\ List.filter is_lifecycle added = [].
Proof.
  destruct (serve_added w req log) as (reply & added & Hserve & Hshape).
  exists reply, added. split; [exact Hserve|].
  destruct (method req).
  - destruct Hshape as [-> | ->]; cbn; auto.
  - destruct Hshape as [-> | [(e & ->) | [(v & ->) | (v & e & ->)]]];
      cbn; auto.
Qed.

Lemma serve_all_exited (w : World) (code : Z) (reqs : list Request)
    (log : list Event) :
  serve_all w (Exited code) reqs log
  = (Exited code, List.map (fun _ => None) reqs, log).
Proof.
  induction reqs as [|req reqs IH]; [reflexivity|].
  cbn [serve_all serve]. rewrite IH. reflexivity.
Qed.

(** X12.  Requests never end the process.  From a serving process, any
    sequence of requests leaves it serving: every request is answered,
    the answers are as many as the requests, the log only grows, at most
    one external call is made per request, and no exit is logged.  From
    an exited process no request is answered and nothing is logged. *)
Theorem serving_goes_on (w : World) (reqs : list Request)
    (log : list Event) :
  (exists replies added,
     serve_all w Listening reqs log
     = (Listening, replies, (log ++ added)%list)
     /\ length replies = length reqs
     /\ Forall is_Some replies
     /\ (length (List.filter is_probe added) <= length reqs)%nat
     /\ List.filter is_lifecycle added = [])
  /\ (forall code,
        serve_all w (Exited code) reqs log
        = (Exited code, List.map (fun _ => None) reqs, log)).
Proof.
  split; [|intros code; apply serve_all_exited].
  revert log. induction reqs as [|req reqs IH]; intros log.
  - exists [], []. rewrite app_nil_r. repeat split; auto.
  - destruct (serve_effects w req log)
      as (reply & added & Hserve & Hprobe & Hlife).
    destruct (IH (log ++ added)%list)
      as (replies & more & Hall & Hlen & Hsome & Hcalls & Hquiet).
    exists (Some reply :: replies), (added ++ more)%list.
    cbn [serve_all]. rewrite Hserve, Hall. rewrite <- app_assoc.
    split; [reflexivity|]. split; [cbn; now rewrite Hlen|].
    split; [constructor; eauto|].
    rewrite !List.filter_app, Hlife, Hquiet, length_app.
    split; [cbn [length]; lia | reflexivity].
Qed.

(** X13.  The default prompt of /api/gemini-test stands in for an absent
    or undefined [prompt] only: any other value -- null, a number, the
    empty string, an object -- is passed to the client as it is, in one
    call, and echoed as it is in the [prompt] field of a successful
    response. *)
Theorem any_prompt_is_forwarded (w : World) (b v : JS.Value)
    (log : list Event) :
  JS.get b "prompt" = v ->
  v <> JS.Undefined ->
  snd (serve w Listening (gemini_request b) log)
  = (log ++ [GenerateContent v])%list
  /\ forall t,
       generateContent w log v = GenText t ->
       exists response,
         snd (fst (serve w Listening (gemini_request b) log))
         = Some (Json response)
         /\ status response = 200
         /\ JS.get (payload response) "prompt" = v
         /\ JS.get (payload response) "response" = JS.Str t.
Proof.
  intros Hprompt Hdef.
  assert (Hbody : JS.nullish b = false).
  { destruct b; try reflexivity; simpl in Hprompt; congruence. }
  assert (Hkept : or_default (JS.get b "prompt")
                    (JS.Str "Hello, how are you?") = v).
  { rewrite Hprompt. destruct v; try reflexivity. congruence. }
  rewrite serve_gemini.
  rewrite (api_gemini_test_run w (gemini_request b) log) by assumption.
  cbn [body gemini_request]. rewrite Hkept. split.
  - destruct (generateContent w log v); reflexivity.
  - intros t ->. exists (gemini_ok v t). split; [reflexivity|].
    destruct (gemini_ok_fields v t) as (Hs & _ & Hp & Hr). auto.
Qed.

Lemma any_prompt_is_forwarded_witness :
  snd (serve calm_world Listening (gemini_request null_prompt_body) [])
  = ([] ++ [GenerateContent JS.Null])%list
  /\ forall t,
       generateContent calm_world [] JS.Null = GenText t ->
       exists response,
         snd (fst (serve calm_world Listening
                     (gemini_request null_prompt_body) []))
         = Some (Json response)
         /\ status response = 200
         /\ JS.get (payload response) "prompt" = JS.Null
         /\ JS.get (payload response) "response" = JS.Str t.
Proof.
  apply (any_prompt_is_forwarded calm_world null_prompt_body JS.Null []).
  - vm_compute. reflexivity.
  - discriminate.
Defined.

(** X14.  On success the probe of the data store returns the rows of the
    query unchanged in [data], with no [error] field.  When the query
    resolves with an error value, whatever it is, the response has the
    message of a missing test table and no [data] field. *)
Theorem probe_passes_data_through (w : World) (log : list Event)
    (data : JS.Value) (error : option JS.Error) :
  supabase_query w log = QueryResolves data error ->
  exists response,
    snd (fst (serve w Listening probe_request log)) = Some (Json response)
    /\ match error with
       | None =>
           JS.get (payload response) "data" = data
           /\ JS.get (payload response) "error" = JS.Undefined
           /\ JS.get (payload response) "message"
              = JS.Str "Supabase connected successfully"
       | Some e =>
           JS.get (payload response) "data" = JS.Undefined
           /\ JS.get (payload response) "error" = JS.Str (JS.message e)
           /\ JS.get (payload response) "message"
              = JS.Str "Supabase connected (no test table found)"
       end.
Proof.
  intros Hquery. rewrite serve_probe.
  unfold api_supabase_test, try_catch, bind, call. rewrite Hquery.
  destruct error as [e|]; eexists; (split; [reflexivity|]);
    unfold JS.object; cbn [payload JS.get list_to_map foldr uncurry fst snd];
    repeat split;
    rewrite ?lookup_insert_eq; try reflexivity;
    rewrite !lookup_insert_ne by discriminate;
    rewrite ?lookup_insert_eq, ?lookup_empty; reflexivity.
Qed.

Lemma probe_passes_data_through_witness :
  exists response,
    snd (fst (serve calm_world Listening probe_request []))
    = Some (Json response)
    /\ JS.get (payload response) "data" = JS.Arr []
    /\ JS.get (payload response) "error" = JS.Undefined
    /\ JS.get (payload response) "message"
       = JS.Str "Supabase connected successfully".
Proof.
  apply (probe_passes_data_through calm_world [] (JS.Arr []) None).
  reflexivity.
Defined.



(** * Further properties of the prompt and of the diagnostic *)

Lemma length_append (a b : string) :
  String.length (a ++ b) = (String.length a + String.length b)%nat.
Proof.
  induction a as [|x a IH]; [reflexivity|].
  change (S (String.length (a ++ b))
          = S (String.length a + String.length b)).
  now rewrite IH.
Qed.

Lemma append_cancel_l (s a b : string) : s ++ a = s ++ b -> a = b.
Proof.
  induction s as [|x s IH]; intros H; [exact H|].
  change (String x (s ++ a) = String x (s ++ b)) in H.
  injection H as H. now apply IH.
Qed.

Lemma append_inj_length (a b c d : string) :
  String.length a = String.length c -> a ++ b = c ++ d -> a = c /\ b = d.
Proof.
  revert c. induction a as [|x a IH]; intros [|y c] Hlen H;
    try discriminate Hlen.
  - split; [reflexivity | exact H].
  - change (String x (a ++ b) = String y (c ++ d)) in H.
    injection H as -> H. injection Hlen as Hlen.
    destruct (IH c Hlen H) as [-> ->]. split; reflexivity.
Qed.

Lemma append_cancel_r (a b s : string) : a ++ s = b ++ s -> a = b.
Proof.
  intros H. apply (append_inj_length a s b s); [|exact H].
  apply (f_equal String.length) in H. rewrite !length_append in H. lia.
Qed.

(** X16.  The prompt keeps its inputs apart one at a time: for one
    language, two different codes never give the same prompt, and for one
    code, two different languages never give the same prompt. *)
Theorem prompt_tells_inputs_apart (l1 l2 c1 c2 : string) :
  (review_prompt l1 c1 = review_prompt l1 c2 -> c1 = c2)
  /\ (review_prompt l1 c1 = review_prompt l2 c1 -> l1 = l2).
Proof.
  unfold review_prompt. split; intros H.
  - repeat apply append_cancel_l in H.
    apply append_cancel_r in H. exact H.
  - apply append_cancel_l in H.
    assert (Hlen : String.length l1 = String.length l2).
    { apply (f_equal String.length) in H.
      rewrite !length_append in H. lia. }
    apply (append_inj_length _ _ _ _ Hlen) in H. apply H.
Qed.

(** X17.  A refused start echoes no value of the environment: every
    event it logs is one of the fixed lines, the line naming one of the
    three required keys, or the exit with status 1. *)
Theorem refused_start_echoes_no_value (w : World)
    (penv : gmap string string) (e : Event) :
  (exists key, In key requiredEnvVars
               /\ unusable (dotenv_config w penv) key) ->
  In e (snd (main w penv)) ->
  In e refusal_vocabulary.
Proof.
  intros (key & Hreq & Hbad) Hin.
  rewrite (main_refuses w penv key Hreq Hbad) in Hin. cbn [snd] in Hin.
  unfold refusal in Hin. unfold refusal_vocabulary.
  rewrite !in_app_iff in Hin. rewrite in_app_iff.
  destruct Hin as [[Hhead | [Hkeys | Htail]] | Hexit].
  - left. destruct Hhead as [<- | []]. cbn. auto.
  - right. apply in_map_iff in Hkeys as (k & <- & Hk).
    apply in_map. unfold missingEnvVars in Hk.
    apply filter_In in Hk. apply Hk.
  - left. cbn [In] in Htail |- *.
    repeat (destruct Htail as [<- | Htail]; [auto 12|]). destruct Htail.
  - left. destruct Hexit as [<- | []]. cbn [In]. auto 12.
Qed.

Lemma refused_start_echoes_no_value_witness :
  In (ConsoleError "   - GOOGLE_GEMINI_API_KEY") refusal_vocabulary.
Proof.
  apply (refused_start_echoes_no_value calm_world unedited_env).
  - exists "GOOGLE_GEMINI_API_KEY". split.
    + simpl. auto.
    + left. vm_compute. reflexivity.
  - vm_compute. auto 12.
Defined.

(** X18.  The code of a review need not be a string.  A safe integer
    other than zero, the boolean true and an object with no own [toString]
    property pass the presence check, and the prompt sent reviews their
    printed form: the numeral, the word true, and the text
    [object Object]. *)
Theorem code_need_not_be_a_string (w : World) (b v : JS.Value)
    (l : string) (log : list Event) :
  JS.get b "code" = v ->
  JS.to_string (or_default (JS.get b "language") (JS.Str "javascript"))
  = Some l ->
  (forall n, v = JS.Num n -> n <> 0 -> Z.abs n <= 9007199254740991 ->
     prompts_sent (snd (serve w Listening (review_request b) log))
     = (prompts_sent log
          ++ [JS.Str (review_prompt l (JS.number_to_string n))])%list)
  /\ (v = JS.Bool true ->
      prompts_sent (snd (serve w Listening (review_request b) log))
      = (prompts_sent log ++ [JS.Str (review_prompt l "true")])%list)
  /\ (forall fields, v = JS.Obj fields -> fields !! "toString" = None ->
        prompts_sent (snd (serve w Listening (review_request b) log))
        = (prompts_sent log
             ++ [JS.Str (review_prompt l "[object Object]")])%list).
Proof.
  intros Hcode Hlang.
  assert (Hgo : forall c,
             JS.truthy v = true -> JS.to_string v = Some c ->
             prompts_sent (snd (serve w Listening (review_request b) log))
             = (prompts_sent log ++ [JS.Str (review_prompt l c)])%list).
  { intros c Htruthy Hc.
    assert (Hbody : JS.nullish b = false).
    { destruct b; try reflexivity; simpl in Hcode; subst v; discriminate. }
    apply (review_uses_language w b l c log); try assumption;
      rewrite Hcode; assumption. }
  split; [|split].
  - intros n -> Hn _. apply Hgo; [|reflexivity].
    simpl. apply negb_true_iff. now apply Z.eqb_neq.
  - intros ->. apply Hgo; reflexivity.
  - intros fields -> Hnone. apply Hgo; [reflexivity|].
    simpl. now rewrite Hnone.
Qed.

Lemma code_need_not_be_a_string_witness :
  prompts_sent
    (snd (serve calm_world Listening (review_request numeric_code_body) []))
  = (prompts_sent [] ++ [JS.Str (review_prompt "javascript" "42")])%list.
Proof.
  destruct (code_need_not_be_a_string calm_world numeric_code_body
              (JS.Num 42) "javascript" []) as [Hnum _].
  - vm_compute. reflexivity.
  - vm_compute. reflexivity.
  - apply (Hnum 42); [reflexivity | discriminate | simpl; lia].
Defined.
